(** * Free-agent tracker: a shallow embedding of [app.py] and [fa_tracker.py]

    The two Streamlit scripts load twenty CSV files into a nested dictionary
    of pandas frames, rewrite currency columns in place and render pages.
    The development models

    - pandas frames as ordered lists of labelled, typed columns;
    - the frames reachable from [data] as objects in a heap, because
      [convert_currency_columns] assigns to [df[col]] of the object it is
      handed;
    - a script run as a computation in a state-and-exception monad whose
      state is the heap together with the list of elements drawn so far;
    - the widgets' return values as a record of user inputs.

    Floating-point numbers are idealised as exact rationals (plus the two
    infinities and NaN); rounding is not modelled. *)

From Stdlib Require Import QArith ZArith String Ascii List Lia.
From Stdlib Require Import Sorting.Permutation Sorting.Sorted.
From stdpp Require Import base option list sorting gmap strings pretty.

Local Open Scope string_scope.
Local Open Scope list_scope.

(** ** Values *)

(** A Python [float]: a finite value, an infinity, or NaN. Finite values are
    kept in lowest terms so that equal numbers are equal terms. *)
Inductive float : Type :=
| Fin (q : Q)
| Inf (negative : bool)
| NaN.

(** An element of an [object] column: a [str] or a float (a missing CSV field
    is the float NaN). *)
Inductive cell : Type :=
| VStr (s : string)
| VFloat (x : float).

(** A pandas [Series] with its dtype. Integer columns behave like [float64]
    ones in every operation used by the scripts and are not distinguished. *)
Inductive Series : Type :=
| object (values : list cell)
| float64 (values : list float).

(** A [DataFrame]: its columns in order, each with its label. The row index
    is not modelled. *)
Definition DataFrame : Type := list (string * Series).

Inductive exn : Type :=
| FileNotFoundError (filename : string)
| ParserError (filename : string)
| ValueError (detail : string)
| KeyError (key : string)
| AttributeError (detail : string)
| TypeError (detail : string)
| IndexError (detail : string).

Inductive result (A : Type) : Type :=
| Ok (a : A)
| Raise (e : exn).
Arguments Ok {A} a.
Arguments Raise {A} e.

#[global] Instance Q_eq_dec : EqDecision Q.
Proof. solve_decision. Defined.
#[global] Instance float_eq_dec : EqDecision float.
Proof. solve_decision. Defined.
#[global] Instance cell_eq_dec : EqDecision cell.
Proof. solve_decision. Defined.
#[global] Instance Series_eq_dec : EqDecision Series.
Proof. solve_decision. Defined.
#[global] Instance exn_eq_dec : EqDecision exn.
Proof. solve_decision. Defined.

#[global] Instance result_ret : MRet result := @Ok.
#[global] Instance result_fmap : FMap result := fun A B f m =>
  match m with
  | Ok a => Ok (f a)
  | Raise e => Raise e
  end.
#[global] Instance result_bind : MBind result := fun A B f m =>
  match m with
  | Ok a => f a
  | Raise e => Raise e
  end.

(** ** Strings *)

Definition chars (s : string) : list ascii := list_ascii_of_string s.
Definition text (l : list ascii) : string := string_of_list_ascii l.

Definition isdigit_char (c : ascii) : bool :=
  (48 <=? nat_of_ascii c)%nat && (nat_of_ascii c <=? 57)%nat.

(** [str.isdigit]: non-empty and made of digits only (ASCII digits; the
    strings of the model are byte strings). *)
Definition isdigit (s : string) : bool :=
  match chars s with
  | [] => false
  | l => forallb isdigit_char l
  end.

Definition is_space (c : ascii) : bool :=
  let n := nat_of_ascii c in
  (n =? 32)%nat || ((9 <=? n)%nat && (n <=? 13)%nat).

Fixpoint lstrip (l : list ascii) : list ascii :=
  match l with
  | c :: r => if is_space c then lstrip r else l
  | [] => []
  end.

(** [str.strip()] *)
Definition strip (s : string) : string :=
  text (rev (lstrip (rev (lstrip (chars s))))).

(** [s.replace(c, "")] for a one-character pattern [c]. *)
Definition remove_char (c : ascii) (s : string) : string :=
  text (List.filter (fun d => negb (Ascii.eqb d c)) (chars s)).

(** [c in s] for a one-character pattern [c]. *)
Definition contains_char (c : ascii) (s : string) : bool :=
  existsb (Ascii.eqb c) (chars s).

(** [s.startswith("$")] *)
Definition startswith (p s : string) : bool := String.prefix p s.

Definition lower_char (c : ascii) : ascii :=
  let n := nat_of_ascii c in
  if (65 <=? n)%nat && (n <=? 90)%nat then ascii_of_nat (n + 32) else c.

(** [str.lower()] on ASCII text. *)
Definition lower (s : string) : string := text (map lower_char (chars s)).

(** ** [float(str)] *)

(** The grammar of Python's [float] constructor on ASCII input:
    surrounding whitespace, an optional sign, then [inf], [infinity] or [nan]
    in any case, or a decimal numeral with an optional fraction and exponent,
    where single underscores may separate digits. *)

Definition digit_value (c : ascii) : Z := Z.of_nat (nat_of_ascii c) - 48.

(** the continuation of a digit part: [(["_"] digit)*] *)
Fixpoint digitpart_tail (l : list ascii) : list ascii * list ascii :=
  match l with
  | c :: r =>
      if isdigit_char c then
        let '(ds, rest) := digitpart_tail r in (c :: ds, rest)
      else if Ascii.eqb c "_" then
        match r with
        | d :: r' =>
            if isdigit_char d then
              let '(ds, rest) := digitpart_tail r' in (d :: ds, rest)
            else ([], l)
        | [] => ([], l)
        end
      else ([], l)
  | [] => ([], [])
  end.

(** [digit (["_"] digit)*], or nothing when the input does not start with a
    digit *)
Definition digitpart (l : list ascii) : list ascii * list ascii :=
  match l with
  | c :: _ => if isdigit_char c then digitpart_tail l else ([], l)
  | [] => ([], [])
  end.

Definition digits_value (ds : list ascii) : Z :=
  fold_left (fun acc c => 10 * acc + digit_value c)%Z ds 0%Z.

Definition sign_of (l : list ascii) : bool * list ascii :=
  match l with
  | c :: r =>
      if Ascii.eqb c "-" then (true, r)
      else if Ascii.eqb c "+" then (false, r)
      else (false, l)
  | [] => (false, [])
  end.

(** [m * 10 ^ e] in lowest terms *)
Definition scale10 (m e : Z) : Q :=
  if (0 <=? e)%Z then Qred (inject_Z (m * 10 ^ e))
  else Qred (Qmake m (Z.to_pos (10 ^ (- e)))).

Definition exponent (l : list ascii) : option Z :=
  match l with
  | [] => Some 0%Z
  | c :: r =>
      if Ascii.eqb (lower_char c) "e" then
        let '(neg, r1) := sign_of r in
        match digitpart r1 with
        | ((_ :: _) as ds, []) =>
            Some (if neg then (- digits_value ds)%Z else digits_value ds)
        | _ => None
        end
      else None
  end.

Definition floatnumber (l : list ascii) : option Q :=
  let '(ip, r1) := digitpart l in
  let '(fp, r2) :=
    match r1 with
    | c :: r => if Ascii.eqb c "." then digitpart r else ([], r1)
    | [] => ([], [])
    end in
  match ip ++ fp with
  | [] => None
  | ds =>
      e ← exponent r2;
      Some (scale10 (digits_value ds) (e - Z.of_nat (length fp)))
  end.

Definition py_float (s : string) : option float :=
  let '(neg, body) := sign_of (chars (strip s)) in
  let word := text (map lower_char body) in
  if decide (word = "inf" ∨ word = "infinity") then Some (Inf neg)
  else if decide (word = "nan") then Some NaN
  else q ← floatnumber body; Some (Fin (if neg then Qred (- q) else q)).


(** ** Series *)

Definition is_str (c : cell) : bool :=
  match c with VStr _ => true | VFloat _ => false end.

Definition is_nan (c : cell) : bool :=
  match c with VFloat NaN => true | _ => false end.

(** The [.str] accessor of an [object] column is refused when the values
    that are not NaN are all numbers: pandas raises [AttributeError] unless
    the inferred type is string-like, mixed or empty. *)
Definition str_accessor (values : list cell) : result unit :=
  if existsb is_str values || forallb is_nan values then Ok tt
  else Raise (AttributeError "Can only use .str accessor with string values!").

(** [s.str.startswith(p).any()]: elements that are not strings give NaN,
    which [any] skips. *)
Definition str_startswith_any (p : string) (values : list cell) : bool :=
  existsb (fun c => match c with VStr s => startswith p s | VFloat _ => false end)
          values.

(** [s.replace('[\$,]', '', regex=True)] on one element: every dollar sign
    and comma of a string is removed; other elements are kept. *)
Definition replace_currency (c : cell) : cell :=
  match c with
  | VStr s => VStr (remove_char "," (remove_char "$" s))
  | VFloat x => VFloat x
  end.

Definition cell_to_float (c : cell) : result float :=
  match c with
  | VStr s =>
      match py_float s with
      | Some x => Ok x
      | None => Raise (ValueError s)
      end
  | VFloat x => Ok x
  end.

(** [astype(float)] on the values of an [object] column, element by element
    from the first; the first string that [float] refuses raises
    [ValueError]. *)
Fixpoint astype_float (values : list cell) : result (list float) :=
  match values with
  | [] => Ok []
  | c :: rest =>
      x ← cell_to_float c;
      xs ← astype_float rest;
      Ok (x :: xs)
  end.

(** ** Frames *)

Definition columns (df : DataFrame) : list string := map fst df.

(** [df[col]] read as a Series. A missing label raises [KeyError]; with a
    repeated label pandas returns a frame, on which the attribute the scripts
    read next ([dtype], [unique], [values]) does not exist. *)
Definition getitem (df : DataFrame) (col : string) : result Series :=
  match List.filter (fun p => String.eqb (fst p) col) df with
  | [] => Raise (KeyError col)
  | [(_, s)] => Ok s
  | _ => Raise (AttributeError "'DataFrame' object has no such attribute")
  end.

(** [df[col] = s]: the column labelled [col] is replaced where it stands; a
    new label is appended. *)
Fixpoint setitem (df : DataFrame) (col : string) (s : Series) : DataFrame :=
  match df with
  | [] => [(col, s)]
  | (c, old) :: rest =>
      if String.eqb c col then (c, s) :: rest
      else (c, old) :: setitem rest col s
  end.

(** [df.drop(columns=[col], errors="ignore")]: a new frame without that
    column. *)
Definition drop (col : string) (df : DataFrame) : DataFrame :=
  List.filter (fun p => negb (String.eqb (fst p) col)) df.

(** ** The heap, the page and the script monad *)

(** Frames are mutable objects: a variable holds a reference, and the heap
    maps references to the current contents. *)
Definition loc : Type := nat.

(** The frame built for one pitcher's chart, column by column as in the
    dictionary passed to [pd.DataFrame]. *)
Record pitch_summary : Type := {
  Pitch_Type : list string;
  Usage : list float;
  Velo : list (option cell);
  Value : list (option cell);
  Stf : list (option cell)
}.

(** A transposed frame: one column per row of the original, labelled by that
    row's index value; one row per remaining column of the original. *)
Record Transposed : Type := {
  t_index : list string;
  t_columns : list (cell * list cell)
}.

(** What a script run draws, in order. Option lists hold the option values;
    integers are written as numbers. *)
Inductive element : Type :=
| sidebar_title (body : string)
| sidebar_markdown (body : string)
| sidebar_radio (label : string) (options : list string)
| title (body : string)
| markdown (body : string)
| radio (label : string) (options : list string)
| multiselect (label : string) (options default : list cell)
              (max_selections : option nat)
| selectbox (label : string) (options : list cell) (index : nat)
| data_editor (df : DataFrame)
| data_editor_transposed (df : Transposed)
| warning (body : string)
| altair_chart (summary : pitch_summary) (color_domain color_range : list string).

Record world : Type := World {
  heap : list DataFrame;
  screen : list element
}.

(** A computation reads and writes the world and returns or raises; the
    world reached when an exception is raised is kept. *)
Definition M (A : Type) : Type := world -> result A * world.

#[global] Instance M_ret : MRet M := fun A a w => (Ok a, w).
#[global] Instance M_bind : MBind M := fun A B f m w =>
  match m w with
  | (Ok a, w') => f a w'
  | (Raise e, w') => (Raise e, w')
  end.

Definition lift {A} (r : result A) : M A := fun w => (r, w).
Definition raise {A} (e : exn) : M A := lift (Raise e).

Definition draw (e : element) : M unit := fun w =>
  (Ok tt, {| heap := heap w; screen := screen w ++ [e] |}).

(** a new object *)
Definition alloc (df : DataFrame) : M loc := fun w =>
  (Ok (length (heap w)), {| heap := heap w ++ [df]; screen := screen w |}).

(** the current contents of an object; every reference a script holds was
    allocated, so the error case is never met *)
Definition deref (l : loc) : M DataFrame := fun w =>
  match heap w !! l with
  | Some df => (Ok df, w)
  | None => (Raise (AttributeError "dangling reference"), w)
  end.

Definition assign (l : loc) (df : DataFrame) : M unit := fun w =>
  (Ok tt, {| heap := <[l := df]> (heap w); screen := screen w |}).

Fixpoint for_each {A} (l : list A) (body : A -> M unit) : M unit :=
  match l with
  | [] => mret tt
  | x :: rest => body x;; for_each rest body
  end.

(** ** [convert_currency_columns] *)

(** The loop runs over the labels the frame has when the loop starts and
    assigns to [df[col]] of the object it was handed. *)
Definition convert_body (df : loc) (col : string) : M unit :=
  s ← (t ← deref df; lift (getitem t col));
  match s with
  | object values =>
      lift (str_accessor values);;
      if str_startswith_any "$" values then
        xs ← lift (astype_float (map replace_currency values));
        t ← deref df;
        assign df (setitem t col (float64 xs))
      else mret tt
  | float64 _ => mret tt
  end.

Definition convert_currency_columns (df : loc) : M loc :=
  t0 ← deref df;
  for_each (columns t0) (convert_body df);;
  mret df.

(** *** The loop on the contents of the object *)

(** One iteration, as a function of the current contents. *)
Definition convert_step (t : DataFrame) (col : string) : result DataFrame :=
  s ← getitem t col;
  match s with
  | object values =>
      str_accessor values;;
      if str_startswith_any "$" values then
        xs ← astype_float (map replace_currency values);
        Ok (setitem t col (float64 xs))
      else Ok t
  | float64 _ => Ok t
  end.

(** The whole loop: the outcome and the contents it leaves behind, also
    when an iteration raises. *)
Fixpoint convert_loop (cols : list string) (t : DataFrame)
  : result unit * DataFrame :=
  match cols with
  | [] => (Ok tt, t)
  | col :: rest =>
      match convert_step t col with
      | Ok t' => convert_loop rest t'
      | Raise e => (Raise e, t)
      end
  end.

(** What happens to a single column. *)
Definition convert_column (s : Series) : result Series :=
  match s with
  | object values =>
      str_accessor values;;
      if str_startswith_any "$" values then
        xs ← astype_float (map replace_currency values);
        Ok (float64 xs)
      else Ok s
  | float64 _ => Ok s
  end.

(** The frame with every column converted, from the first column on. *)
Fixpoint normalize (t : DataFrame) : result DataFrame :=
  match t with
  | [] => Ok []
  | (c, s) :: rest =>
      s' ← convert_column s;
      rest' ← normalize rest;
      Ok ((c, s') :: rest')
  end.

Definition set_heap (w : world) (l : loc) (t : DataFrame) : world :=
  {| heap := <[l := t]> (heap w); screen := screen w |}.

Definition occurrences (col : string) (labels : list string) : nat :=
  length (List.filter (String.eqb col) labels).





(** *** Sample frames *)

Definition aav_column : Series := object [VStr "$1,200"; VStr "$950"].

Definition contract_sample : DataFrame :=
  [("Name", object [VStr "A"; VStr "B"]); ("AAV", aav_column)].

(** a frame whose first currency column cannot be parsed *)
Definition contract_bad_salary : DataFrame :=
  [("Salary", object [VStr "$abc"; VStr "$1"]); ("AAV", aav_column)].



(** ** More of Python and pandas *)

(** [str(n)] for an integer *)
Definition str_int (n : Z) : string := pretty n.

(** [s[-2:]] *)
Definition last_two (s : string) : string :=
  let l := chars s in text (skipn (length l - 2) l).

(** [int(s)]: surrounding whitespace, an optional sign and decimal digits *)
Definition py_int (s : string) : result Z :=
  let '(neg, body) := sign_of (chars (strip s)) in
  match digitpart body with
  | ((_ :: _) as ds, []) =>
      Ok (if neg then (- digits_value ds)%Z else digits_value ds)
  | _ => Raise (ValueError s)
  end.

(** [", ".join(l)] *)
Fixpoint join (sep : string) (l : list string) : string :=
  match l with
  | [] => ""
  | [s] => s
  | s :: rest => s +:+ sep +:+ join sep rest
  end.

(** The values of a column as Python objects. *)
Definition cells (s : Series) : list cell :=
  match s with
  | object values => values
  | float64 xs => map VFloat xs
  end.

Definition series_length (s : Series) : nat := length (cells s).

Definition nrows (df : DataFrame) : nat :=
  match df with
  | [] => 0
  | (_, s) :: _ => series_length s
  end.

(** [df.empty]: no column or no row *)
Definition empty (df : DataFrame) : bool :=
  match df with
  | [] => true
  | _ => (nrows df =? 0)%nat
  end.

(** [l[idx]] with a list of positions (all in range where it is used) *)
Definition iloc {A} (l : list A) (idx : list nat) : list A :=
  omap (fun i => l !! i) idx.

Definition series_iloc (s : Series) (idx : list nat) : Series :=
  match s with
  | object values => object (iloc values idx)
  | float64 xs => float64 (iloc xs idx)
  end.

(** the rows at the given positions, in that order *)
Definition take_rows (df : DataFrame) (idx : list nat) : DataFrame :=
  map (fun p => (fst p, series_iloc (snd p) idx)) df.

(** the positions where a boolean mask holds *)
Definition nonzero (mask : list bool) : list nat :=
  map fst (List.filter snd (combine (seq 0 (length mask)) mask)).

(** [df[mask]] *)
Definition filter_rows (df : DataFrame) (mask : list bool) : DataFrame :=
  take_rows df (nonzero mask).

(** [s.isin(values)]; a missing value is found among missing values *)
Definition isin (s : Series) (values : list cell) : list bool :=
  map (fun c => bool_decide (c ∈ values)) (cells s).

(** [s == v], element by element; NaN equals nothing *)
Definition series_eq (s : Series) (v : cell) : list bool :=
  map (fun c => negb (is_nan c) && bool_decide (c = v)) (cells s).

(** [s.unique()]: the distinct values in order of first appearance *)
Fixpoint unique (l : list cell) : list cell :=
  match l with
  | [] => []
  | c :: rest => c :: List.filter (fun d => negb (bool_decide (d = c))) (unique rest)
  end.

(** [df.head(n)] *)
Definition head (n : nat) (df : DataFrame) : DataFrame :=
  take_rows df (seq 0 (Nat.min n (nrows df))).

(** *** [pd.concat] *)

Definition lookup_column (df : DataFrame) (col : string) : option Series :=
  snd <$> List.find (fun p => String.eqb (fst p) col) df.

(** the labels of all frames, each once, in order of first appearance *)
Definition union_columns (dfs : list DataFrame) : list string :=
  fold_left
    (fun acc df =>
       fold_left (fun acc col => if bool_decide (col ∈ acc) then acc else acc ++ [col])
                 (columns df) acc)
    dfs [].

Definition is_float64 (s : Series) : bool :=
  match s with float64 _ => true | object _ => false end.

Definition floats (s : Series) : list float :=
  match s with
  | float64 xs => xs
  | object _ => []
  end.

(** The column [col] of the concatenation: a frame without that column
    contributes missing values; the result is numeric when every part is. *)
Definition concat_column (dfs : list DataFrame) (col : string) : Series :=
  let parts :=
    map (fun df => match lookup_column df col with
                   | Some s => s
                   | None => float64 (repeat NaN (nrows df))
                   end) dfs in
  if forallb is_float64 parts then float64 (concat (map floats parts))
  else object (concat (map cells parts)).

(** [pd.concat(dfs)]: the rows of the frames one after the other. *)
Definition pd_concat (dfs : list DataFrame) : result DataFrame :=
  match dfs with
  | [] => Raise (ValueError "No objects to concatenate")
  | _ => Ok (map (fun col => (col, concat_column dfs col)) (union_columns dfs))
  end.

(** *** [set_index("Name").transpose()] *)

Definition row (df : DataFrame) (i : nat) : list cell :=
  omap (fun p => cells (snd p) !! i) df.

Definition set_index_transpose (df : DataFrame) (key : string) : result Transposed :=
  names ← getitem df key;
  let rest := drop key df in
  Ok {| t_index := columns rest;
        t_columns := imap (fun i name => (name, row rest i)) (cells names) |}.

(** *** Sorting *)

(** [numpy.argsort] with the default kind: the positions that sort the
    array. Which of two equal elements comes first is left to the sort. *)
Class Argsort : Type :=
  argsort : forall K : Type, (K -> K -> bool) -> list K -> list nat.

Definition total {K} (leb : K -> K -> bool) : Prop :=
  forall x y, leb x y = true \/ leb y x = true.

Definition transitive {K} (leb : K -> K -> bool) : Prop :=
  forall x y z, leb x y = true -> leb y z = true -> leb x z = true.

(** What numpy promises of every sort kind. *)
Definition sorts (A : Argsort) : Prop :=
  forall (K : Type) (leb : K -> K -> bool) (l : list K),
    Permutation (argsort K leb l) (seq 0 (length l)) /\
    (total leb -> transitive leb ->
     StronglySorted (fun x y => leb x y = true) (iloc l (argsort K leb l))).

(** The order of floats that are not NaN; NaN is put last only to make the
    relation total, the sort never compares it. *)
Definition float_leb (a b : float) : bool :=
  match a, b with
  | Inf true, _ => true
  | _, NaN => true
  | NaN, _ => false
  | _, Inf false => true
  | Inf false, _ => false
  | Fin _, Inf true => false
  | Fin p, Fin q => Qle_bool p q
  end.

Definition cell_leb (a b : cell) : bool :=
  match a, b with
  | VStr s, VStr t => String.leb s t
  | VFloat x, VFloat y => float_leb x y
  | VFloat _, VStr _ => true
  | VStr _, VFloat _ => false
  end.

(** pandas' [nargsort(items, ascending=False, na_position="last")]: the
    values that are not missing are reversed, sorted, and the positions
    reversed again; the missing ones follow. *)
Definition nargsort {A : Argsort} {K} (leb : K -> K -> bool) (isna : K -> bool)
    (items : list K) : list nat :=
  let mask := map isna items in
  let non_nan_idx := nonzero (map negb mask) in
  let nan_idx := nonzero mask in
  let non_nans := rev (iloc items non_nan_idx) in
  let non_nan_idx := rev non_nan_idx in
  let indexer := iloc non_nan_idx (argsort K leb non_nans) in
  rev indexer ++ nan_idx.

Definition is_nanf (x : float) : bool :=
  match x with NaN => true | _ => false end.

(** The positions [df.sort_values(by=col, ascending=False)] puts the rows in.
    Comparing a string with a number raises [TypeError]. *)
Definition sort_indexer {A : Argsort} (df : DataFrame) (by_ : string) : result (list nat) :=
  k ← getitem df by_;
  match k with
  | float64 xs => Ok (nargsort float_leb is_nanf xs)
  | object values =>
      let present := List.filter (fun c => negb (is_nan c)) values in
      if forallb is_str present || forallb (fun c => negb (is_str c)) present
      then Ok (nargsort cell_leb is_nan values)
      else Raise (TypeError "'<' not supported between instances of 'str' and 'float'")
  end.

Definition sort_values {A : Argsort} (df : DataFrame) (by_ : string) : result DataFrame :=
  idx ← sort_indexer df by_;
  Ok (take_rows df idx).

(** Two sorts by insertion, on the positions paired with their keys. With
    [after_equal] a position is put after the keys equal to its own, which
    keeps equal keys in their original order; without it the position is put
    before them. *)
Fixpoint insert_position {K} (leb : K -> K -> bool) (after_equal : bool)
    (x : nat * K) (sorted : list (nat * K)) : list (nat * K) :=
  match sorted with
  | [] => [x]
  | y :: rest =>
      if (if after_equal then leb (snd y) (snd x) else negb (leb (snd x) (snd y)))
      then y :: insert_position leb after_equal x rest
      else x :: sorted
  end.

Definition insertion_sort {K} (leb : K -> K -> bool) (after_equal : bool)
    (l : list (nat * K)) : list (nat * K) :=
  fold_left (fun acc x => insert_position leb after_equal x acc) l [].

Definition insertion_argsort (after_equal : bool) : Argsort :=
  fun K leb l => map fst (insertion_sort leb after_equal (combine (seq 0 (length l)) l)).

Definition stable_argsort : Argsort := insertion_argsort true.
Definition unstable_argsort : Argsort := insertion_argsort false.

(** *** Text of values *)

(** the decimal digits of [r / d] after the point, at most [fuel] of them *)
Fixpoint fraction_digits (fuel : nat) (r d : Z) : string :=
  match fuel with
  | O => ""
  | S fuel' =>
      if (r =? 0)%Z then ""
      else pretty (10 * r / d)%Z +:+ fraction_digits fuel' ((10 * r) mod d)%Z d
  end.

(** [str(x)] for a float, in positional notation (Python switches to
    exponents for very large and very small magnitudes). *)
Definition str_float (x : float) : string :=
  match x with
  | NaN => "nan"
  | Inf true => "-inf"
  | Inf false => "inf"
  | Fin q =>
      let n := Z.abs (Qnum q) in
      let d := Zpos (Qden q) in
      (if (Qnum q <? 0)%Z then "-" else "") +:+ pretty (n / d)%Z +:+ "." +:+
      (if (n mod d =? 0)%Z then "0" else fraction_digits 17 (n mod d)%Z d)
  end.

(** [str(v)], as an f-string prints a value *)
Definition py_str (c : cell) : string :=
  match c with
  | VStr s => s
  | VFloat x => str_float x
  end.

(** an integer option of a widget *)
Definition int_cell (n : Z) : cell := VFloat (Fin (inject_Z n)).

(** ** What the user chose *)

(** The values the widgets return in a run. The two selections whose default
    depends on the data are optional: [None] is the untouched widget. *)
Record inputs : Type := {
  page : string;
  mode : string;
  selected_years : list Z;
  player_type : string;
  selected_players : option (list cell);
  selected_year : Z;
  data_type : string;
  selected_stat : option string
}.

(** ** The part the two scripts share (lines 1 to 61 of both files) *)

Definition Dataset : Type := gmap string (gmap Z (gmap string loc)).

(** [data[category][year][kind]] *)
Definition data_get (data : Dataset) (category : string) (year : Z) (kind : string)
  : result loc :=
  match data !! category with
  | None => Raise (KeyError category)
  | Some by_year =>
      match by_year !! year with
      | None => Raise (KeyError (str_int year))
      | Some kinds =>
          match kinds !! kind with
          | None => Raise (KeyError kind)
          | Some l => Ok l
          end
      end
  end.

(** [int(str(year)[-2:])] *)
Definition year_key (year : Z) : result Z := py_int (last_two (str_int year)).

Section Loader.
(** [pd.read_csv]: the files of the working directory and their parsing. *)
Context (read_csv : string -> result DataFrame).

(** [pd.read_csv(name).drop(columns=["playerid"], errors="ignore")] as a
    new object *)
Definition read (name : string) : M loc :=
  df ← lift (read_csv name);
  alloc (drop "playerid" df).

Definition load_year (data : Dataset) (year : Z) : M Dataset :=
  let yy := str_int year in
  hp ← read ("hitters_" +:+ yy +:+ ".csv");
  hc ← read ("hitters_" +:+ yy +:+ "_contract.csv");
  let data :=
    <["hitters" := <[year := {["performance" := hp; "contract" := hc]}]>
                     (default ∅ (data !! "hitters"))]> data in
  pp ← read ("pitchers_" +:+ yy +:+ ".csv");
  pc ← read ("pitchers_" +:+ yy +:+ "_contract.csv");
  pt ← read ("pitchers_" +:+ yy +:+ "_pitches.csv");
  mret (<["pitchers" := <[year := {["performance" := pp; "contract" := pc;
                                    "pitches" := pt]}]>
                          (default ∅ (data !! "pitchers"))]> data).

Fixpoint load_years (years : list Z) (data : Dataset) : M Dataset :=
  match years with
  | [] => mret data
  | year :: rest => data' ← load_year data year; load_years rest data'
  end.

Definition load_data : M Dataset :=
  let years := [22; 23; 24; 25]%Z in
  load_years years {["hitters" := ∅; "pitchers" := ∅]}.
End Loader.

Definition pages : list string :=
  ["Home"; "Search & Compare Free Agents"; "2025 Free Agents"; "Top Leaders"].

Definition sidebar : M unit :=
  draw (sidebar_title "MLB Free Agent Analysis");;
  draw (sidebar_markdown
          "***Created and updated by Carly Mitchell. (carlymbaseball@gmail.com)***");;
  draw (sidebar_radio "Select a Page" pages).

Definition home_text : string :=
"
        Welcome to the MLB Free Agent Analysis Tool! Use this app to:
        - **Search & Compare free agents**: Filter by position, metrics, and performance stats, or compare specific players.
        - **Upcoming free agents**: View projections for the 2025 season.
        - **Top leaders**: Visualize the top players in various stats by free agency class.
        
        <br><br>  <!-- Adds extra spacing -->
        
        ***Data is pulled from [FanGraphs.com](https://www.fangraphs.com) and covers free agents from 2022 - 2025.***  
    ".

Definition years_options : list cell := map int_cell [2022; 2023; 2024; 2025]%Z.
Definition modes : list string := ["Performance Data"; "Contract Data"].
Definition player_types : list string := ["Hitters"; "Pitchers"].

(** a string comparison of the scripts, [a == b] *)
Definition eqs (a b : string) : bool := String.eqb a b.

(** the value of a multiselect: the user's choice, or the default *)
Definition chosen {A} (choice : option A) (default : A) : A :=
  match choice with
  | Some x => x
  | None => default
  end.

(** the loop [for year in selected_years] that looks a frame up, converts it
    and collects it; the list holds references *)
Fixpoint collect (data : Dataset) (category kind : string) (years : list Z)
  : M (list loc) :=
  match years with
  | [] => mret []
  | year :: rest =>
      df ← lift (yy ← year_key year; data_get data category yy kind);
      df ← convert_currency_columns df;
      dfs ← collect data category kind rest;
      mret (df :: dfs)
  end.

(** the current contents of the collected frames *)
Fixpoint contents (dfs : list loc) : M (list DataFrame) :=
  match dfs with
  | [] => mret []
  | l :: rest => t ← deref l; ts ← contents rest; mret (t :: ts)
  end.

(** the title line shared by the Search & Compare headings *)
Definition years_text (years : list Z) : string := join ", " (map str_int years).

(** ** [app.py] *)

Module App.
Section Script.
Context (read_csv : string -> result DataFrame) {A : Argsort}.

Definition home_page : M unit :=
  draw (title "MLB Free Agent Analysis Tool");;
  draw (markdown home_text).

(** the comparison of the selected players (lines 92 to 97) *)
Definition comparison (player_type : string) (selected_years : list Z)
    (combined_df : DataFrame) (selected_players : list cell) : M unit :=
  if (length selected_players <? 2)%nat then
    draw (warning "Please select at least 2 players for comparison.")
  else
    draw (markdown ("### " +:+ player_type +:+ " Comparison for " +:+
                    years_text selected_years));;
    comparison_df ← lift (
      name ← getitem combined_df "Name";
      set_index_transpose (filter_rows combined_df (isin name selected_players)) "Name");
    draw (data_editor_transposed comparison_df).

Definition search_compare_page (data : Dataset) (i : inputs) : M unit :=
  draw (title "Search & Compare Free Agents");;
  draw (radio "Mode" modes);;
  let mode := mode i in
  draw (multiselect "Select Year(s)" years_options [int_cell 2025] None);;
  let selected_years := selected_years i in
  draw (radio "Select Player Type" player_types);;
  let player_type := player_type i in
  let data_type := if eqs mode "Performance Data" then "performance" else "contract" in
  dfs ← collect data (lower player_type) data_type selected_years;
  combined_df ← (ts ← contents dfs; lift (pd_concat ts));
  draw (markdown ("### " +:+ player_type +:+ " " +:+ mode +:+ " for " +:+
                  years_text selected_years));;
  draw (data_editor combined_df);;
  names ← lift (cells <$> getitem combined_df "Name");
  draw (multiselect "Select Players to Compare (Up to 5)"
          (unique names) (firstn 2 (unique names)) (Some 5%nat));;
  let selected_players := chosen (selected_players i) (firstn 2 (unique names)) in
  comparison player_type selected_years combined_df selected_players;;
  if eqs player_type "Pitchers" then
    draw (markdown "### Pitch Type Usage & Performance");;
    pitch_dfs ← collect data "pitchers" "pitches" selected_years;
    selected_pitch_data ← (ts ← contents pitch_dfs; lift (pd_concat ts));
    selected_pitch_data ← lift (
      name ← getitem selected_pitch_data "Name";
      Ok (filter_rows selected_pitch_data (isin name selected_players)));
    if negb (empty selected_pitch_data) then
      draw (data_editor selected_pitch_data)
    else
      draw (warning "No pitch type data available for the selected players.")
  else mret tt.

Definition free_agents_2025_page (data : Dataset) (i : inputs) : M unit :=
  draw (title "2025 Free Agents - 2024 Data");;
  draw (radio "View Data Type" modes);;
  let mode := mode i in
  let data_type := if eqs mode "Performance Data" then "performance" else "contract" in
  hitters_2025 ← lift (data_get data "hitters" 25 data_type);
  pitchers_2025 ← lift (data_get data "pitchers" 25 data_type);
  hitters_2025 ← convert_currency_columns hitters_2025;
  pitchers_2025 ← convert_currency_columns pitchers_2025;
  draw (markdown "### Hitters");;
  (t ← deref hitters_2025; draw (data_editor t));;
  draw (markdown "### Pitchers");;
  (t ← deref pitchers_2025; draw (data_editor t)).

Definition top_leaders_page (data : Dataset) (i : inputs) : M unit :=
  draw (title "Top Leaders by Free Agency Class");;
  draw (selectbox "Select Year" years_options 3);;
  let selected_year := selected_year i in
  draw (radio "Select Player Type" player_types);;
  let player_type := player_type i in
  draw (radio "View Data Type" modes);;
  let data_type := data_type i in
  df ← lift (yy ← year_key selected_year;
             data_get data (lower player_type) yy
               (if eqs data_type "Performance Data" then "performance" else "contract"));
  df ← convert_currency_columns df;
  t ← deref df;
  let options := tail (columns t) in
  let index := if bool_decide ("WAR" ∈ options)
               then default 0%nat (list_find (eq "WAR") options ≫= (Some ∘ fst))
               else 0%nat in
  draw (selectbox "Select a Stat" (map VStr options) index);;
  selected_stat ← lift (
    match chosen (Some <$> selected_stat i) (options !! index) with
    | Some stat => Ok stat
    | None => Raise (KeyError "None")
    end);
  top_leaders ← lift (head 10 <$> sort_values t selected_stat);
  draw (data_editor top_leaders);;
  if eqs data_type "Performance Data" && eqs player_type "Pitchers" then
    draw (markdown "### Pitch Type Usage & Performance");;
    pitch_df ← lift (yy ← year_key selected_year; data_get data "pitchers" yy "pitches");
    pitch_df ← convert_currency_columns pitch_df;
    t ← deref pitch_df;
    draw (data_editor t)
  else mret tt.

(** one run of the script *)
Definition main (i : inputs) : M unit :=
  data ← load_data read_csv;
  sidebar;;
  let page := page i in
  if eqs page "Home" then home_page
  else if eqs page "Search & Compare Free Agents" then search_compare_page data i
  else if eqs page "2025 Free Agents" then free_agents_2025_page data i
  else if eqs page "Top Leaders" then top_leaders_page data i
  else mret tt.
End Script.
End App.

(** ** [fa_tracker.py] *)

Module FaTracker.
Section Script.
Context (read_csv : string -> result DataFrame) {A : Argsort}.

Definition home_page : M unit :=
  draw (title "MLB Free Agent Analysis Tool");;
  draw (markdown home_text).

Definition pitch_types : list string :=
  ["4S"; "CT"; "2S"; "CH"; "SL"; "CB"; "SPLT"; "KCB"; "XX"].

Definition pitch_colors : list (string * string) :=
  [("4S", "red"); ("2S", "yellow"); ("CH", "purple"); ("SL", "green");
   ("CB", "blue"); ("CT", "orange"); ("SPLT", "pink"); ("KCB", "brown");
   ("XX", "gray")].

(** [{pitch: pitcher_data[label(pitch)].values[0] for pitch in pitch_types
     if label(pitch) in pitcher_data.columns}], a dictionary in insertion
    order *)
Fixpoint extract (pitcher_data : DataFrame) (label : string -> string)
    (types : list string) : result (list (string * cell)) :=
  match types with
  | [] => Ok []
  | pitch :: rest =>
      if bool_decide (label pitch ∈ columns pitcher_data) then
        s ← getitem pitcher_data (label pitch);
        v ← match cells s !! 0%nat with
            | Some v => Ok v
            | None => Raise (IndexError "index 0 is out of bounds")
            end;
        others ← extract pitcher_data label rest;
        Ok ((pitch, v) :: others)
      else extract pitcher_data label rest
  end.

(** the condition of the comprehension that converts the usage values:
    [isinstance(v, str) and "%" in v and
     str(v).replace("%", "").replace(".", "").isdigit()] *)
Definition usage_accepted (v : cell) : bool :=
  match v with
  | VStr s => contains_char "%" s && isdigit (remove_char "." (remove_char "%" s))
  | VFloat _ => false
  end.

(** [float(str(v).replace("%", "").strip())] *)
Definition usage_value (v : cell) : result float :=
  let s := strip (remove_char "%" (py_str v)) in
  match py_float s with
  | Some x => Ok x
  | None => Raise (ValueError s)
  end.

Fixpoint parse_usage (pitch_usage : list (string * cell))
  : result (list (string * float)) :=
  match pitch_usage with
  | [] => Ok []
  | (k, v) :: rest =>
      if usage_accepted v then
        x ← usage_value v;
        others ← parse_usage rest;
        Ok ((k, x) :: others)
      else parse_usage rest
  end.

(** [d.get(k, None)] *)
Definition get (d : list (string * cell)) (k : string) : option cell :=
  snd <$> List.find (fun p => String.eqb (fst p) k) d.

Definition summary_of (pitch_usage : list (string * float))
    (pitch_velo pitch_value pitch_stuff : list (string * cell)) : pitch_summary :=
  {| Pitch_Type := map fst pitch_usage;
     Usage := map snd pitch_usage;
     Velo := map (get pitch_velo) (map fst pitch_usage);
     Value := map (get pitch_value) (map fst pitch_usage);
     Stf := map (get pitch_stuff) (map fst pitch_usage) |}.

(** The data of one pitcher's chart (lines 127 to 145): the four
    dictionaries, the conversion of the usage values, and the frame of the
    chart, or [None] when no usage value is left. *)
Definition breakdown (pitcher_data : DataFrame) : result (option pitch_summary) :=
  pitch_usage ← extract pitcher_data (fun pitch => pitch +:+ "%") pitch_types;
  pitch_velo ← extract pitcher_data (fun pitch => "v" +:+ pitch) pitch_types;
  pitch_value ← extract pitcher_data (fun pitch => "w" +:+ pitch) pitch_types;
  pitch_stuff ← extract pitcher_data (fun pitch => "Stf+ " +:+ pitch) pitch_types;
  pitch_usage ← parse_usage pitch_usage;
  match pitch_usage with
  | [] => Ok None
  | _ => Ok (Some (summary_of pitch_usage pitch_velo pitch_value pitch_stuff))
  end.

(** one turn of [for pitcher in selected_players] *)
Definition pitcher_section (selected_pitch_data : DataFrame) (pitcher : cell) : M unit :=
  draw (markdown ("#### " +:+ py_str pitcher +:+ "'s Pitch Usage"));;
  pitcher_data ← lift (
    name ← getitem selected_pitch_data "Name";
    Ok (filter_rows selected_pitch_data (series_eq name pitcher)));
  if empty pitcher_data then
    draw (warning ("No pitch data available for " +:+ py_str pitcher +:+ "."))
  else
    summary ← lift (breakdown pitcher_data);
    match summary with
    | None =>
        draw (warning ("No valid pitch usage data available for " +:+
                       py_str pitcher +:+ "."))
    | Some pitch_summary =>
        draw (altair_chart pitch_summary (map fst pitch_colors) (map snd pitch_colors))
    end.

(** the loop that collects the pitch frames; the labels of each are
    stripped on the object itself *)
Fixpoint collect_pitches (data : Dataset) (years : list Z) : M (list loc) :=
  match years with
  | [] => mret []
  | year :: rest =>
      pitch_df ← lift (yy ← year_key year; data_get data "pitchers" yy "pitches");
      pitch_df ← convert_currency_columns pitch_df;
      t ← deref pitch_df;
      assign pitch_df (map (fun p => (strip (fst p), snd p)) t);;
      dfs ← collect_pitches data rest;
      mret (pitch_df :: dfs)
  end.

Definition search_compare_page (data : Dataset) (i : inputs) : M unit :=
  draw (title "Search & Compare Free Agents");;
  draw (radio "Mode" modes);;
  let mode := mode i in
  draw (multiselect "Select Year(s)" years_options [int_cell 2025] None);;
  let selected_years := selected_years i in
  draw (radio "Select Player Type" player_types);;
  let player_type := player_type i in
  let data_type := if eqs mode "Performance Data" then "performance" else "contract" in
  dfs ← collect data (lower player_type) data_type selected_years;
  combined_df ← (ts ← contents dfs; lift (pd_concat ts));
  draw (markdown ("### " +:+ player_type +:+ " " +:+ mode +:+ " for " +:+
                  years_text selected_years));;
  draw (data_editor combined_df);;
  names ← lift (cells <$> getitem combined_df "Name");
  draw (multiselect "Select Players to Compare (Up to 5)"
          (unique names) (firstn 2 (unique names)) (Some 5%nat));;
  let selected_players := chosen (selected_players i) (firstn 2 (unique names)) in
  if eqs player_type "Pitchers" then
    draw (markdown "### Pitch Type Usage & Performance");;
    pitch_dfs ← collect_pitches data selected_years;
    selected_pitch_data ← (ts ← contents pitch_dfs; lift (pd_concat ts));
    selected_pitch_data ← lift (
      name ← getitem selected_pitch_data "Name";
      Ok (filter_rows selected_pitch_data (isin name selected_players)));
    if negb (empty selected_pitch_data) then
      for_each selected_players (pitcher_section selected_pitch_data)
    else
      draw (warning "No pitch type data available for the selected players.")
  else mret tt.

Definition free_agents_2025_page (data : Dataset) (i : inputs) : M unit :=
  draw (title "2025 Free Agents - 2024 Data");;
  draw (radio "View Data Type" modes);;
  let mode := mode i in
  let data_type := if eqs mode "Performance Data" then "performance" else "contract" in
  hitters_2025 ← lift (data_get data "hitters" 25 data_type);
  pitchers_2025 ← lift (data_get data "pitchers" 25 data_type);
  hitters_2025 ← convert_currency_columns hitters_2025;
  pitchers_2025 ← convert_currency_columns pitchers_2025;
  draw (markdown "### Hitters");;
  (t ← deref hitters_2025; draw (data_editor t));;
  draw (markdown "### Pitchers");;
  (t ← deref pitchers_2025; draw (data_editor t)).

Definition top_leaders_page (data : Dataset) (i : inputs) : M unit :=
  draw (title "Top Leaders by Free Agency Class");;
  draw (selectbox "Select Year" years_options 3);;
  let selected_year := selected_year i in
  draw (radio "Select Player Type" player_types);;
  let player_type := player_type i in
  draw (radio "View Data Type" modes);;
  let data_type := data_type i in
  df ← lift (yy ← year_key selected_year;
             data_get data (lower player_type) yy
               (if eqs data_type "Performance Data" then "performance" else "contract"));
  df ← convert_currency_columns df;
  t ← deref df;
  let options := tail (columns t) in
  let index := if bool_decide ("WAR" ∈ options)
               then default 0%nat (list_find (eq "WAR") options ≫= (Some ∘ fst))
               else 0%nat in
  draw (selectbox "Select a Stat" (map VStr options) index);;
  selected_stat ← lift (
    match chosen (Some <$> selected_stat i) (options !! index) with
    | Some stat => Ok stat
    | None => Raise (KeyError "None")
    end);
  top_leaders ← lift (head 10 <$> sort_values t selected_stat);
  draw (data_editor top_leaders);;
  if eqs data_type "Performance Data" && eqs player_type "Pitchers" then
    draw (markdown "### Pitch Type Usage & Performance");;
    pitch_df ← lift (yy ← year_key selected_year; data_get data "pitchers" yy "pitches");
    pitch_df ← convert_currency_columns pitch_df;
    t ← deref pitch_df;
    draw (data_editor t)
  else mret tt.

(** one run of the script; the Home test is an [if] of its own here *)
Definition main (i : inputs) : M unit :=
  data ← load_data read_csv;
  sidebar;;
  let page := page i in
  (if eqs page "Home" then home_page else mret tt);;
  if eqs page "Search & Compare Free Agents" then search_compare_page data i
  else if eqs page "2025 Free Agents" then free_agents_2025_page data i
  else if eqs page "Top Leaders" then top_leaders_page data i
  else mret tt.
End Script.
End FaTracker.

(** ** Sample data *)

Definition expected_year_files (year : Z) : list string :=
  let yy := str_int year in
  ["hitters_" +:+ yy +:+ ".csv"; "hitters_" +:+ yy +:+ "_contract.csv";
   "pitchers_" +:+ yy +:+ ".csv"; "pitchers_" +:+ yy +:+ "_contract.csv";
   "pitchers_" +:+ yy +:+ "_pitches.csv"].

(** the twenty files in the order [load_data] reads them *)
Definition expected_files : list string :=
  concat (map expected_year_files [22; 23; 24; 25]%Z).

(** the error of the first file of the list that cannot be read *)
Fixpoint first_failure (read_csv : string -> result DataFrame) (names : list string)
  : option exn :=
  match names with
  | [] => None
  | name :: rest =>
      match read_csv name with
      | Ok _ => first_failure read_csv rest
      | Raise e => Some e
      end
  end.

Definition q (n : Z) (d : positive) : float := Fin (Qred (Qmake n d)).

(** the table of the Top Leaders example *)
Definition war_sample : DataFrame :=
  [("Name", object [VStr "A"; VStr "B"; VStr "C"; VStr "D"]);
   ("WAR", float64 [q 31 10; q 5 1; q 12 10; q 5 1])].

Definition hitters_24 : DataFrame :=
  [("playerid", float64 [q 7 1; q 8 1]);
   ("Name", object [VStr "A"; VStr "E"]);
   ("WAR", float64 [q 2 1; q 1 1])].

Definition pitchers_sample : DataFrame :=
  [("Name", object [VStr "P"; VStr "Q"]); ("WAR", float64 [q 4 1; q 3 1])].

(** a pitch-mix file: P has a slider, Q's usage is numeric *)
Definition pitches_sample : DataFrame :=
  [("Name", object [VStr "P"; VStr "Q"]);
   ("SL%", object [VStr "45.0%"; VFloat NaN]);
   ("vSL", float64 [q 882 10; NaN])].

(** a pitch-mix file whose only usage value has two decimal points *)
Definition pitches_two_points : DataFrame :=
  [("Name", object [VStr "P"]);
   ("SL%", object [VStr "1.2.3%"]);
   ("vSL", float64 [q 882 10])].


(** a pitch-mix file with a space before a label *)
Definition pitches_spaced : DataFrame :=
  [("Name", object [VStr "P"]);
   (" SL%", object [VStr "45.0%"])].

Definition files_with (pitches : DataFrame) : list (string * DataFrame) :=
  concat (map (fun year =>
    let yy := str_int year in
    [("hitters_" +:+ yy +:+ ".csv", if (year =? 24)%Z then hitters_24 else war_sample);
     ("hitters_" +:+ yy +:+ "_contract.csv", contract_sample);
     ("pitchers_" +:+ yy +:+ ".csv", pitchers_sample);
     ("pitchers_" +:+ yy +:+ "_contract.csv", contract_sample);
     ("pitchers_" +:+ yy +:+ "_pitches.csv", pitches)]) [22; 23; 24; 25]%Z).

Definition read_from (files : list (string * DataFrame)) (name : string)
  : result DataFrame :=
  match List.find (fun p => String.eqb (fst p) name) files with
  | Some p => Ok (snd p)
  | None => Raise (FileNotFoundError name)
  end.

(** a working directory with all twenty files *)
Definition sample_files : string -> result DataFrame := read_from (files_with pitches_sample).

(** the same directory without [hitters_22.csv] *)
Definition missing_file : string -> result DataFrame :=
  read_from (tail (files_with pitches_sample)).

Definition start : world := {| heap := []; screen := [] |}.

Definition choose (page mode player_type : string) (years : list Z)
    (players : option (list cell)) : inputs :=
  {| page := page; mode := mode; selected_years := years;
     player_type := player_type; selected_players := players;
     selected_year := 2025; data_type := mode; selected_stat := None |}.

(** ** What the two Search & Compare pages have in common *)

(** Lines 66 to 90 of [app.py], 67 to 89 of [fa_tracker.py]: the controls,
    the combined table and the selection of players. *)
Definition search_compare_common (data : Dataset) (i : inputs)
  : M (DataFrame * list cell) :=
  draw (title "Search & Compare Free Agents");;
  draw (radio "Mode" modes);;
  draw (multiselect "Select Year(s)" years_options [int_cell 2025] None);;
  draw (radio "Select Player Type" player_types);;
  dfs ← collect data (lower (player_type i))
          (if eqs (mode i) "Performance Data" then "performance" else "contract")
          (selected_years i);
  combined_df ← (ts ← contents dfs; lift (pd_concat ts));
  draw (markdown ("### " +:+ player_type i +:+ " " +:+ mode i +:+ " for " +:+
                  years_text (selected_years i)));;
  draw (data_editor combined_df);;
  names ← lift (cells <$> getitem combined_df "Name");
  draw (multiselect "Select Players to Compare (Up to 5)"
          (unique names) (firstn 2 (unique names)) (Some 5%nat));;
  mret (combined_df, chosen (selected_players i) (firstn 2 (unique names))).

(** the world once the sidebar is drawn *)
Definition with_sidebar (w : world) : world :=
  {| heap := heap w;
     screen := screen w ++
       [sidebar_title "MLB Free Agent Analysis";
        sidebar_markdown
          "***Created and updated by Carly Mitchell. (carlymbaseball@gmail.com)***";
        sidebar_radio "Select a Page" pages] |}.


(** the order of a column sorted with [ascending=False]: larger values
    first, missing values last *)
Definition descending {K} (leb : K -> K -> bool) (isna : K -> bool) (x y : K) : Prop :=
  isna y = true \/ (isna x = false /\ leb y x = true).

(** a computation that only adds to what is drawn, whatever it returns *)
Definition extends_screen {X} (m : M X) : Prop :=
  forall w, exists extra, screen (snd (m w)) = screen w ++ extra.

(** every column of the frame has [n] rows *)
Definition rectangular (df : DataFrame) (n : nat) : Prop :=
  Forall (fun p => series_length (snd p) = n) df.

(** the frame the loader stores for a file: the file's frame without the
    [playerid] column; nothing when the file cannot be read *)
Definition loaded (read_csv : string -> result DataFrame) (name : string)
  : option DataFrame :=
  match read_csv name with
  | Ok f => Some (drop "playerid" f)
  | Raise _ => None
  end.
(** * Properties *)

Lemma set_heap_id w l t : heap w !! l = Some t -> set_heap w l t = w.
Proof.
  intros H. destruct w as [h sc]. unfold set_heap. simpl in *.
  by rewrite list_insert_id.
Qed.

Lemma set_heap_lookup w l t t0 :
  heap w !! l = Some t0 -> heap (set_heap w l t) !! l = Some t.
Proof.
  intros H. simpl. apply list_lookup_insert_eq. by eapply lookup_lt_Some.
Qed.

Lemma set_heap_twice w l t t' : set_heap (set_heap w l t) l t' = set_heap w l t'.
Proof. unfold set_heap. simpl. by rewrite list_insert_insert_eq. Qed.

(** The monadic loop acts on the object as [convert_loop] does on its
    contents and touches nothing else. *)
Lemma for_each_convert_loop (df : loc) (cols : list string) (w : world) (t : DataFrame) :
  heap w !! df = Some t ->
  for_each cols (convert_body df) w
  = (fst (convert_loop cols t), set_heap w df (snd (convert_loop cols t))).
Proof.
  revert w t. induction cols as [|col rest IH]; intros w t Hw.
  - simpl. unfold mret, M_ret. by rewrite set_heap_id.
  - simpl. unfold mbind at 1. unfold M_bind. unfold convert_body at 1.
    unfold mbind at 1. unfold M_bind.
    unfold mbind at 1. unfold M_bind.
    unfold deref at 1. rewrite Hw. unfold lift at 1.
    unfold convert_step.
    destruct (getitem t col) as [s|e] eqn:Hg; simpl.
    2: { by rewrite set_heap_id. }
    destruct s as [values|xs]; simpl.
    + unfold mbind at 1, M_bind, lift at 1.
      destruct (str_accessor values) as [[]|e] eqn:Hs; simpl.
      2: { by rewrite set_heap_id. }
      destruct (str_startswith_any "$" values) eqn:Hany.
      * unfold mbind at 1, M_bind, lift at 1.
        destruct (astype_float (map replace_currency values)) as [ys|e] eqn:Ha; simpl.
        2: { by rewrite set_heap_id. }
        unfold mbind at 1, M_bind, deref at 1. rewrite Hw.
        unfold assign.
        change ({| heap := <[df:=setitem t col (float64 ys)]> (heap w); screen := screen w |})
          with (set_heap w df (setitem t col (float64 ys))).
        rewrite (IH _ (setitem t col (float64 ys))).
        -- by rewrite set_heap_twice.
        -- by eapply set_heap_lookup.
      * unfold mret, M_ret. by apply IH.
    + unfold mret, M_ret. by apply IH.
Qed.

Lemma convert_currency_columns_eq (df : loc) (w : world) (t : DataFrame) :
  heap w !! df = Some t ->
  convert_currency_columns df w =
    (match fst (convert_loop (columns t) t) with Ok _ => Ok df | Raise e => Raise e end,
     set_heap w df (snd (convert_loop (columns t) t))).
Proof.
  intros Hw. unfold convert_currency_columns.
  unfold mbind at 1, M_bind. unfold deref at 1. rewrite Hw.
  unfold mbind at 1, M_bind.
  rewrite (for_each_convert_loop df (columns t) w t Hw).
  destruct (convert_loop (columns t) t) as [[[]|e] t']; reflexivity.
Qed.

(** *** Labels and lookups *)

Lemma filter_label_absent (t : DataFrame) (col : string) :
  col ∉ columns t -> List.filter (fun p => String.eqb (fst p) col) t = [].
Proof.
  induction t as [|[c s] rest IH]; intros Hn; [done|]. simpl in *.
  apply not_elem_of_cons in Hn as [Hne Hrest].
  destruct (String.eqb_spec c col); [congruence|]. by apply IH.
Qed.

Lemma filter_label_present (t : DataFrame) (col : string) :
  col ∈ columns t -> List.filter (fun p => String.eqb (fst p) col) t <> [].
Proof.
  induction t as [|[c s] rest IH]; intros Hin; simpl in *.
  - by apply elem_of_nil in Hin.
  - destruct (String.eqb_spec c col); [done|].
    apply elem_of_cons in Hin as [->|Hin]; [done|]. by apply IH.
Qed.

Lemma getitem_unique (done todo : DataFrame) (c : string) (s : Series) :
  NoDup (columns (done ++ (c, s) :: todo)) ->
  getitem (done ++ (c, s) :: todo) c = Ok s.
Proof.
  unfold columns. rewrite map_app. simpl. intros Hnd.
  apply NoDup_app in Hnd as (_ & Hdis & Hnd2).
  apply NoDup_cons in Hnd2 as [Hc _].
  unfold getitem. rewrite List.filter_app. simpl. rewrite String.eqb_refl.
  rewrite (filter_label_absent done), (filter_label_absent todo); try done.
  intros Hin. apply (Hdis c Hin). by left.
Qed.

Lemma setitem_unique (done todo : DataFrame) (c : string) (s s' : Series) :
  c ∉ columns done ->
  setitem (done ++ (c, s) :: todo) c s' = done ++ (c, s') :: todo.
Proof.
  induction done as [|[d x] rest IH]; simpl; intros Hn.
  - by rewrite String.eqb_refl.
  - apply not_elem_of_cons in Hn as [Hne Hrest].
    destruct (String.eqb_spec d c); [congruence|]. by rewrite IH.
Qed.

Lemma getitem_elem (t : DataFrame) (col : string) (s : Series) :
  getitem t col = Ok s ->
  (col, s) ∈ t /\ length (List.filter (fun p => String.eqb (fst p) col) t) = 1%nat.
Proof.
  unfold getitem. intros H.
  destruct (List.filter _ t) as [|[c x] [|? ?]] eqn:Hf; try done.
  injection H as ->. split; [|done].
  assert (Hin : In (c, s) (List.filter (fun p => String.eqb (fst p) col) t))
    by (rewrite Hf; by left).
  apply List.filter_In in Hin as [Hin Heq]. simpl in Heq.
  apply String.eqb_eq in Heq as ->. by apply list_elem_of_In.
Qed.

Lemma setitem_columns (t : DataFrame) (col : string) (s : Series) :
  col ∈ columns t -> columns (setitem t col s) = columns t.
Proof.
  induction t as [|[c x] rest IH]; simpl; intros Hin.
  - by apply elem_of_nil in Hin.
  - destruct (String.eqb_spec c col) as [->|Hne]; [done|]. simpl.
    apply elem_of_cons in Hin as [->|Hin]; [done|]. by rewrite IH.
Qed.

Lemma getitem_label (t : DataFrame) (col : string) (s : Series) :
  getitem t col = Ok s -> col ∈ columns t.
Proof.
  intros H. apply getitem_elem in H as [Hin _].
  unfold columns. apply list_elem_of_fmap. by exists (col, s).
Qed.

(** *** The loop keeps the labels *)

Lemma convert_step_columns (t t' : DataFrame) (col : string) :
  convert_step t col = Ok t' -> columns t' = columns t.
Proof.
  unfold convert_step. destruct (getitem t col) as [s|e] eqn:Hg; [|done]. simpl.
  destruct s as [values|xs]; [|by intros [= <-]].
  destruct (str_accessor values) as [[]|e]; [|done]. simpl.
  destruct (str_startswith_any "$" values); [|by intros [= <-]].
  destruct (astype_float _) as [ys|e]; [|done]. simpl.
  intros [= <-]. apply setitem_columns. by eapply getitem_label.
Qed.


(** *** A loop that returns ran on distinct labels *)

Lemma occurrences_columns (t : DataFrame) (col : string) :
  length (List.filter (fun p => String.eqb (fst p) col) t)
  = occurrences col (columns t).
Proof.
  unfold occurrences. induction t as [|[c s] rest IH]; [done|]. simpl.
  rewrite (String.eqb_sym col c). destruct (String.eqb c col); simpl; by rewrite IH.
Qed.

Lemma occurrences_zero (col : string) (labels : list string) :
  occurrences col labels = 0%nat -> col ∉ labels.
Proof.
  unfold occurrences. induction labels as [|c rest IH]; simpl; intros H.
  - apply not_elem_of_nil.
  - destruct (String.eqb_spec col c); [done|].
    apply not_elem_of_cons. split; [done|]. by apply IH.
Qed.

Lemma NoDup_occurrences (labels : list string) :
  (forall c, c ∈ labels -> occurrences c labels = 1%nat) -> NoDup labels.
Proof.
  induction labels as [|c rest IH]; intros H; [constructor|].
  assert (Hc : c ∉ rest).
  { apply occurrences_zero. specialize (H c ltac:(by left)).
    unfold occurrences in *. simpl in H. rewrite String.eqb_refl in H.
    simpl in H. lia. }
  constructor; [done|]. apply IH. intros d Hd.
  assert (Hd' : d ∈ c :: rest) by (by right).
  apply H in Hd'. unfold occurrences in *. simpl in Hd'.
  destruct (String.eqb_spec d c) as [Heq|Hne]; [by subst|]. exact Hd'.
Qed.

Lemma convert_loop_ok_occurrences (cols : list string) (t t' : DataFrame) :
  convert_loop cols t = (Ok tt, t') ->
  forall c, c ∈ cols -> occurrences c (columns t) = 1%nat.
Proof.
  revert t. induction cols as [|col rest IH]; intros t Hl c Hc.
  - by apply elem_of_nil in Hc.
  - simpl in Hl. destruct (convert_step t col) as [t1|e] eqn:Hs; [|done].
    apply elem_of_cons in Hc as [->|Hc].
    + unfold convert_step in Hs.
      destruct (getitem t col) as [s|e] eqn:Hg; [|done].
      apply getitem_elem in Hg as [_ Hn]. by rewrite <- occurrences_columns.
    + rewrite <- (convert_step_columns _ _ _ Hs). by eapply IH.
Qed.

Lemma convert_loop_ok_NoDup (t t' : DataFrame) :
  convert_loop (columns t) t = (Ok tt, t') -> NoDup (columns t).
Proof.
  intros H. apply NoDup_occurrences. by eapply convert_loop_ok_occurrences.
Qed.

(** *** On distinct labels the loop converts column by column *)

Lemma convert_step_unique (done todo : DataFrame) (c : string) (s : Series) :
  NoDup (columns (done ++ (c, s) :: todo)) ->
  convert_step (done ++ (c, s) :: todo) c
  = (s' ← convert_column s; Ok (done ++ (c, s') :: todo)).
Proof.
  intros Hnd. unfold convert_step. rewrite getitem_unique by done. simpl.
  destruct s as [values|xs]; [|done]. simpl.
  destruct (str_accessor values) as [[]|e]; [|done]. simpl.
  destruct (str_startswith_any "$" values); [|done].
  destruct (astype_float _) as [ys|e]; [|done]. simpl.
  rewrite setitem_unique; [done|].
  unfold columns in Hnd. rewrite map_app in Hnd.
  apply NoDup_app in Hnd as (_ & Hdis & _).
  intros Hin. apply (Hdis c Hin). by left.
Qed.

Lemma convert_loop_unique (done todo : DataFrame) :
  NoDup (columns (done ++ todo)) ->
  match normalize todo with
  | Ok todo' => convert_loop (columns todo) (done ++ todo) = (Ok tt, done ++ todo')
  | Raise e => fst (convert_loop (columns todo) (done ++ todo)) = Raise e
  end.
Proof.
  revert done. induction todo as [|[c s] rest IH]; intros done Hnd.
  - simpl. by rewrite app_nil_r.
  - simpl. rewrite convert_step_unique by done.
    destruct (convert_column s) as [s'|e] eqn:Hc; simpl; [|done].
    specialize (IH (done ++ [(c, s')])).
    rewrite <- !app_assoc in IH. simpl in IH.
    assert (Hnd' : NoDup (columns (done ++ (c, s') :: rest))).
    { unfold columns in *. rewrite map_app in *. exact Hnd. }
    specialize (IH Hnd').
    destruct (normalize rest) as [rest'|e]; simpl.
    + rewrite IH. by rewrite <- app_assoc.
    + exact IH.
Qed.

Lemma convert_loop_normalize (t : DataFrame) :
  NoDup (columns t) ->
  match normalize t with
  | Ok t' => convert_loop (columns t) t = (Ok tt, t')
  | Raise e => fst (convert_loop (columns t) t) = Raise e
  end.
Proof. intros H. exact (convert_loop_unique [] t H). Qed.

Lemma convert_loop_ok (t t' : DataFrame) :
  convert_loop (columns t) t = (Ok tt, t') ->
  NoDup (columns t) /\ normalize t = Ok t'.
Proof.
  intros H. pose proof (convert_loop_ok_NoDup _ _ H) as Hnd. split; [done|].
  pose proof (convert_loop_normalize t Hnd) as Hn.
  destruct (normalize t) as [t1|e]; [congruence|].
  rewrite H in Hn. done.
Qed.

(** *** Conversion of a column and of a frame *)


Lemma astype_float_ok (values : list cell) (xs : list float) :
  astype_float values = Ok xs <->
  Forall2 (fun c x => cell_to_float c = Ok x) values xs.
Proof.
  revert xs. induction values as [|c rest IH]; intros xs; simpl.
  - split; [intros [= <-]; constructor | by inversion 1].
  - destruct (cell_to_float c) as [x|e] eqn:Hc; simpl.
    + destruct (astype_float rest) as [ys|e] eqn:Hr; simpl.
      * split.
        -- intros [= <-]. constructor; [done|]. by apply IH.
        -- inversion 1 as [|? y ? ys' Hy Hys]; subst.
           apply IH in Hys. congruence.
      * split; [done|]. inversion 1 as [|? y ? ys' Hy Hys]; subst.
        apply IH in Hys. congruence.
    + split; [done|]. inversion 1; congruence.
Qed.



Lemma convert_column_idem (s s' : Series) :
  convert_column s = Ok s' -> convert_column s' = Ok s'.
Proof.
  destruct s as [values|xs]; simpl; [|by intros [= <-]].
  destruct (str_accessor values) as [[]|e] eqn:Hs; [|done]. simpl.
  destruct (str_startswith_any "$" values) eqn:Hany.
  - destruct (astype_float _) as [ys|e]; [|done]. by intros [= <-].
  - intros [= <-]. simpl. by rewrite Hs, Hany.
Qed.


Lemma normalize_columns (t t' : DataFrame) :
  normalize t = Ok t' -> columns t' = columns t.
Proof.
  revert t'. induction t as [|[c s] rest IH]; intros t'; simpl.
  - by intros [= <-].
  - destruct (convert_column s) as [s'|e]; [|done]. simpl.
    destruct (normalize rest) as [rest'|e]; [|done]. simpl.
    intros [= <-]. simpl. by rewrite (IH rest').
Qed.

Lemma normalize_idem (t t' : DataFrame) :
  normalize t = Ok t' -> normalize t' = Ok t'.
Proof.
  revert t'. induction t as [|[c s] rest IH]; intros t'; simpl.
  - by intros [= <-].
  - destruct (convert_column s) as [s'|e] eqn:Hc; [|done]. simpl.
    destruct (normalize rest) as [rest'|e]; [|done]. simpl.
    intros [= <-]. simpl. rewrite (convert_column_idem _ _ Hc). simpl.
    by rewrite (IH rest').
Qed.





(** *** The call on an object of the heap *)

Lemma convert_currency_columns_spec (df : loc) (w : world) (t : DataFrame) :
  heap w !! df = Some t ->
  match normalize t with
  | Ok t' =>
      NoDup (columns t) ->
      convert_currency_columns df w = (Ok df, set_heap w df t')
  | Raise e =>
      NoDup (columns t) ->
      exists t', convert_currency_columns df w = (Raise e, set_heap w df t')
  end.
Proof.
  intros Hw. rewrite (convert_currency_columns_eq df w t Hw).
  destruct (normalize t) as [t'|e] eqn:Hn; intros Hnd;
    pose proof (convert_loop_normalize t Hnd) as Hl; rewrite Hn in Hl.
  - by rewrite Hl.
  - destruct (convert_loop (columns t) t) as [r t1]. simpl in *. subst r. by exists t1.
Qed.

Lemma convert_currency_columns_ok (df l : loc) (w w' : world) (t : DataFrame) :
  heap w !! df = Some t ->
  convert_currency_columns df w = (Ok l, w') ->
  l = df /\ NoDup (columns t) /\
  exists t', normalize t = Ok t' /\ w' = set_heap w df t'.
Proof.
  intros Hw. rewrite (convert_currency_columns_eq df w t Hw).
  destruct (convert_loop (columns t) t) as [[[]|e] t'] eqn:Hl; simpl; [|done].
  intros [= <- <-]. apply convert_loop_ok in Hl as [Hnd Hn]. eauto.
Qed.

(** C6. The normalizer is idempotent: running it on the reference it returned
    gives the same outcome and the same world as running it once, whatever
    the frame (when the first run raises, so does the composition, at the
    same point); and on a frame it has normalized it changes nothing. *)
Theorem convert_currency_columns_idempotent (df : loc) (w : world) :
  (l ← convert_currency_columns df; convert_currency_columns l) w
    = convert_currency_columns df w
  /\ (forall l w', convert_currency_columns df w = (Ok l, w') ->
        convert_currency_columns l w' = (Ok l, w')).
Proof.
  assert (Hsecond : forall l w', convert_currency_columns df w = (Ok l, w') ->
            convert_currency_columns l w' = (Ok l, w')).
  { intros l w' Hc. destruct (heap w !! df) as [t|] eqn:Hw.
    - destruct (convert_currency_columns_ok _ _ _ _ _ Hw Hc)
        as (-> & Hnd & t' & Hn & ->).
      pose proof (set_heap_lookup w df t' t Hw) as Hw'.
      pose proof (convert_currency_columns_spec df _ t' Hw') as Hs.
      rewrite (normalize_idem _ _ Hn) in Hs.
      rewrite Hs; [by rewrite set_heap_twice|].
      by rewrite (normalize_columns _ _ Hn).
    - unfold convert_currency_columns, mbind, M_bind, deref in Hc.
      by rewrite Hw in Hc. }
  split; [|done].
  unfold mbind at 1, M_bind.
  destruct (convert_currency_columns df w) as [[l|e] w'] eqn:Hc; [|done].
  by apply Hsecond.
Qed.














(** *** Witnesses and counterexamples for the normalizer *)







(** ** The loader *)

Lemma read_spec (read_csv : string -> result DataFrame) (name : string) (w : world) :
  read read_csv name w
  = match read_csv name with
    | Ok df => (Ok (length (heap w)),
                {| heap := heap w ++ [drop "playerid" df]; screen := screen w |})
    | Raise e => (Raise e, w)
    end.
Proof. unfold read, mbind, M_bind, lift. by destruct (read_csv name). Qed.

Lemma first_failure_app (read_csv : string -> result DataFrame) (l1 l2 : list string) :
  first_failure read_csv (l1 ++ l2)
  = match first_failure read_csv l1 with
    | Some e => Some e
    | None => first_failure read_csv l2
    end.
Proof.
  induction l1 as [|name rest IH]; [done|]. simpl.
  by destruct (read_csv name).
Qed.

Lemma first_failure_Some (read_csv : string -> result DataFrame) (names : list string) (e : exn) :
  first_failure read_csv names = Some e ->
  exists name, name ∈ names /\ read_csv name = Raise e.
Proof.
  induction names as [|name rest IH]; [done|]. simpl.
  destruct (read_csv name) as [df|e'] eqn:Hr.
  - intros H. destruct (IH H) as (n & Hin & Hn). exists n. split; [by right | done].
  - intros [= <-]. exists name. split; [by left | done].
Qed.

Lemma first_failure_None (read_csv : string -> result DataFrame) (names : list string) :
  first_failure read_csv names = None <->
  forall name, name ∈ names -> exists df, read_csv name = Ok df.
Proof.
  induction names as [|name rest IH]; simpl.
  - split; [|done]. intros _ n Hn. by apply elem_of_nil in Hn.
  - destruct (read_csv name) as [df|e] eqn:Hr.
    + rewrite IH. split.
      * intros H n Hn. apply elem_of_cons in Hn as [->|Hn]; [eauto | by apply H].
      * intros H n Hn. apply H. by right.
    + split; [done|]. intros H. destruct (H name) as [df Hdf]; [by left | congruence].
Qed.

Lemma load_year_cases (read_csv : string -> result DataFrame) (data : Dataset)
    (year : Z) (w : world) :
  exists r w',
    load_year read_csv data year w = (r, w') /\ screen w' = screen w /\
    match first_failure read_csv (expected_year_files year) with
    | Some e => r = Raise e
    | None => exists data', r = Ok data'
    end.
Proof.
  unfold load_year, expected_year_files. cbv zeta.
  set (n1 := "hitters_" +:+ str_int year +:+ ".csv").
  set (n2 := "hitters_" +:+ str_int year +:+ "_contract.csv").
  set (n3 := "pitchers_" +:+ str_int year +:+ ".csv").
  set (n4 := "pitchers_" +:+ str_int year +:+ "_contract.csv").
  set (n5 := "pitchers_" +:+ str_int year +:+ "_pitches.csv").
  unfold first_failure.
  unfold mbind at 1, M_bind. rewrite read_spec.
  destruct (read_csv n1) as [d1|e]; [|by eauto].
  unfold mbind at 1, M_bind. rewrite read_spec.
  destruct (read_csv n2) as [d2|e]; [|by eauto].
  unfold mbind at 1, M_bind. rewrite read_spec.
  destruct (read_csv n3) as [d3|e]; [|by eauto].
  unfold mbind at 1, M_bind. rewrite read_spec.
  destruct (read_csv n4) as [d4|e]; [|by eauto].
  unfold mbind at 1, M_bind. rewrite read_spec.
  destruct (read_csv n5) as [d5|e]; [|by eauto].
  unfold mret, M_ret. eexists _, _. split; [reflexivity|]. split; [done | by eauto].
Qed.

Lemma load_year_spec (read_csv : string -> result DataFrame) (data : Dataset)
    (year : Z) (w : world) :
  match first_failure read_csv (expected_year_files year) with
  | Some e => exists w', load_year read_csv data year w = (Raise e, w') /\
                screen w' = screen w
  | None => exists data' w', load_year read_csv data year w = (Ok data', w') /\
              screen w' = screen w
  end.
Proof.
  destruct (load_year_cases read_csv data year w) as (r & w' & Hl & Hs & Hr).
  destruct (first_failure read_csv (expected_year_files year)) as [e|].
  - subst r. eauto.
  - destruct Hr as [data' ->]. eauto.
Qed.

Lemma load_years_spec (read_csv : string -> result DataFrame) (years : list Z)
    (data : Dataset) (w : world) :
  match first_failure read_csv (concat (map expected_year_files years)) with
  | Some e => exists w', load_years read_csv years data w = (Raise e, w') /\
                screen w' = screen w
  | None => exists data' w', load_years read_csv years data w = (Ok data', w') /\
              screen w' = screen w
  end.
Proof.
  revert data w. induction years as [|year rest IH]; intros data w.
  - simpl. unfold mret, M_ret. eauto.
  - change (concat (map expected_year_files (year :: rest)))
      with (expected_year_files year ++ concat (map expected_year_files rest)).
    rewrite first_failure_app.
    pose proof (load_year_spec read_csv data year w) as Hy.
    assert (Hstep : load_years read_csv (year :: rest) data w
                    = match load_year read_csv data year w with
                      | (Ok data', w') => load_years read_csv rest data' w'
                      | (Raise e, w') => (Raise e, w')
                      end) by reflexivity.
    rewrite Hstep. clear Hstep.
    destruct (first_failure read_csv (expected_year_files year)) as [e|].
    + destruct Hy as (w' & -> & Hs). eauto.
    + destruct Hy as (data' & w' & -> & Hs).
      specialize (IH data' w').
      destruct (first_failure read_csv (concat (map expected_year_files rest))) as [e|].
      * destruct IH as (w'' & -> & Hs'). exists w''. split; [done | congruence].
      * destruct IH as (d'' & w'' & -> & Hs'). exists d'', w''. split; [done | congruence].
Qed.

Lemma load_data_spec (read_csv : string -> result DataFrame) (w : world) :
  match first_failure read_csv expected_files with
  | Some e => exists w', load_data read_csv w = (Raise e, w') /\ screen w' = screen w
  | None => exists data w', load_data read_csv w = (Ok data, w') /\ screen w' = screen w
  end.
Proof. apply load_years_spec. Qed.

(** C2 (as the code has it). When one of the twenty files cannot be read or
    parsed, [load_data] raises the reader's exception for the first such file
    in load order; nothing catches it: in both scripts and on every page the
    run ends with that exception before anything is drawn. *)
Theorem load_data_failure (read_csv : string -> result DataFrame) (A : Argsort)
    (name : string) (e0 : exn) :
  name ∈ expected_files ->
  read_csv name = Raise e0 ->
  exists first e,
    first ∈ expected_files /\ read_csv first = Raise e /\
    first_failure read_csv expected_files = Some e /\
    forall (i : inputs) (w : world), exists w',
      load_data read_csv w = (Raise e, w') /\
      App.main read_csv i w = (Raise e, w') /\
      FaTracker.main read_csv i w = (Raise e, w') /\
      screen w' = screen w.
Proof.
  intros Hin Hr.
  destruct (first_failure read_csv expected_files) as [e|] eqn:Hf.
  2: { destruct (proj1 (first_failure_None _ _) Hf name Hin) as [df Hdf]. congruence. }
  destruct (first_failure_Some _ _ _ Hf) as (first & Hfirst & He).
  exists first, e. split; [done|]. split; [done|]. split; [done|].
  intros i w. pose proof (load_data_spec read_csv w) as Hl. rewrite Hf in Hl.
  destruct Hl as (w' & Hl & Hs). exists w'. split; [done|].
  unfold App.main, FaTracker.main, mbind, M_bind. by rewrite Hl.
Qed.

Lemma load_data_failure_witness :
  exists first e,
    first ∈ expected_files /\ missing_file first = Raise e /\
    first_failure missing_file expected_files = Some e.
Proof.
  destruct (load_data_failure missing_file stable_argsort "hitters_22.csv"
              (FileNotFoundError "hitters_22.csv"))
    as (first & e & H1 & H2 & H3 & _).
  - apply list_elem_of_In. vm_compute. left. reflexivity.
  - vm_compute. reflexivity.
  - by exists first, e.
Defined.

Lemma missing_file_aborts (A : Argsort) (i : inputs) :
  App.main missing_file i start
    = (Raise (FileNotFoundError "hitters_22.csv"), start) /\
  FaTracker.main missing_file i start
    = (Raise (FileNotFoundError "hitters_22.csv"), start).
Proof.
  assert (Hl : load_data missing_file start
               = (Raise (FileNotFoundError "hitters_22.csv"), start))
    by (vm_compute; reflexivity).
  unfold App.main, FaTracker.main, mbind, M_bind. rewrite Hl. done.
Qed.

(** C2 (as stated) fails: with [hitters_22.csv] missing, a run of either
    script on the Top Leaders page ends with the uncaught
    [FileNotFoundError] and has drawn nothing, no message included; no view
    was entered. *)
Lemma missing_file_not_surfaced :
  App.main missing_file (A := stable_argsort)
    (choose "Top Leaders" "Performance Data" "Hitters" [2025%Z] None) start
    = (Raise (FileNotFoundError "hitters_22.csv"),
       {| heap := []; screen := [] |}) /\
  FaTracker.main missing_file (A := stable_argsort)
    (choose "Top Leaders" "Performance Data" "Hitters" [2025%Z] None) start
    = (Raise (FileNotFoundError "hitters_22.csv"),
       {| heap := []; screen := [] |}).
Proof. apply missing_file_aborts. Qed.

(** ** The pitch-mix breakdown of [fa_tracker.py] *)



Lemma parse_usage_keys (d : list (string * cell)) (r : list (string * float)) :
  FaTracker.parse_usage d = Ok r ->
  map fst r = map fst (List.filter (fun p => FaTracker.usage_accepted (snd p)) d).
Proof.
  revert r. induction d as [|[k v] rest IH]; intros r; simpl.
  - by intros [= <-].
  - destruct (FaTracker.usage_accepted v); [|by apply IH].
    destruct (FaTracker.usage_value v) as [x|e]; [|done]. simpl.
    destruct (FaTracker.parse_usage rest) as [others|e]; [|done]. simpl.
    intros [= <-]. simpl. by rewrite (IH others).
Qed.





(** C9 (the code at the failing input). A usage value with two decimal
    points passes the test of the parser and then makes [float] raise: the
    pitcher's section ends the run with a [ValueError] after its heading,
    where the claim promises a warning. The example of the claim itself
    works: a slider with usage ["45.0%"] and velocity [88.2] and no value or
    stuff column gives one row whose Value and Stuff fields are null. *)
Theorem pitch_breakdown_two_points_raises :
  FaTracker.usage_accepted (VStr "1.2.3%") = true /\
  py_float "1.2.3" = None /\
  FaTracker.breakdown pitches_two_points = Raise (ValueError "1.2.3") /\
  FaTracker.pitcher_section pitches_two_points (VStr "P") start
    = (Raise (ValueError "1.2.3"),
       {| heap := []; screen := [markdown "#### P's Pitch Usage"] |}) /\
  FaTracker.breakdown (filter_rows pitches_sample (series_eq (object [VStr "P"; VStr "Q"]) (VStr "P")))
    = Ok (Some {| Pitch_Type := ["SL"]; Usage := [Fin 45%Q];
                  Velo := [Some (VFloat (q 882 10))];
                  Value := [None]; Stf := [None] |}).
Proof. repeat split; vm_compute; reflexivity. Qed.

(** ** Rows selected by a mask *)

Lemma iloc_nonzero_shift {A} (f : A -> bool) (pre l : list A) :
  iloc (pre ++ l)
       (map fst (List.filter snd (combine (seq (length pre) (length l)) (map f l))))
  = List.filter f l.
Proof.
  revert pre. induction l as [|x rest IH]; intros pre; [done|]. simpl.
  specialize (IH (pre ++ [x])). rewrite <- app_assoc in IH. simpl in IH.
  rewrite length_app in IH. simpl in IH. rewrite Nat.add_1_r in IH.
  destruct (f x); simpl.
  - unfold iloc in *. simpl. rewrite list_lookup_middle by done. simpl.
    by rewrite IH.
  - exact IH.
Qed.

Lemma iloc_nonzero {A} (f : A -> bool) (l : list A) :
  iloc l (nonzero (map f l)) = List.filter f l.
Proof.
  unfold nonzero. rewrite length_map. exact (iloc_nonzero_shift f [] l).
Qed.

Lemma iloc_map {A B} (f : A -> B) (l : list A) (idx : list nat) :
  map f (iloc l idx) = iloc (map f l) idx.
Proof.
  unfold iloc. induction idx as [|i rest IH]; [done|].
  cbn [omap list_omap]. rewrite list_lookup_fmap.
  destruct (l !! i); cbn; [f_equal|]; exact IH.
Qed.

Lemma cells_series_iloc (s : Series) (idx : list nat) :
  cells (series_iloc s idx) = iloc (cells s) idx.
Proof. destruct s as [values|xs]; [done|]. apply iloc_map. Qed.

Lemma getitem_take_rows (df : DataFrame) (idx : list nat) (key : string) :
  getitem (take_rows df idx) key = (fun s => series_iloc s idx) <$> getitem df key.
Proof.
  unfold getitem, take_rows.
  assert (Hf : List.filter (fun p : string * Series => String.eqb (fst p) key)
                 (map (fun p => (fst p, series_iloc (snd p) idx)) df)
               = map (fun p => (fst p, series_iloc (snd p) idx))
                     (List.filter (fun p => String.eqb (fst p) key) df)).
  { induction df as [|[c s] rest IH]; [done|]. simpl.
    destruct (String.eqb c key); simpl; by rewrite IH. }
  rewrite Hf.
  destruct (List.filter _ df) as [|[c s] [|? ?]]; done.
Qed.

Lemma filter_isin_length (names selected : list cell) :
  NoDup names -> NoDup selected ->
  (forall c, c ∈ selected -> c ∈ names) ->
  length (List.filter (fun c => bool_decide (c ∈ selected)) names) = length selected.
Proof.
  intros Hn Hs Hsub. apply Permutation_length. apply NoDup_Permutation.
  - clear Hsub. induction Hn as [|c rest Hc _ IH]; simpl; [constructor|].
    destruct (bool_decide (c ∈ selected)); [|done].
    constructor; [|done]. intros Hin. apply Hc.
    apply list_elem_of_In in Hin. apply List.filter_In in Hin as [Hin _].
    by apply list_elem_of_In.
  - done.
  - intros c. split.
    + intros Hin. apply list_elem_of_In in Hin. apply List.filter_In in Hin as [_ Hin].
      by apply bool_decide_eq_true in Hin.
    + intros Hin. apply list_elem_of_In. apply List.filter_In. split.
      * apply list_elem_of_In. by apply Hsub.
      * by apply bool_decide_eq_true.
Qed.

Lemma columns_drop_take_rows (df : DataFrame) (idx : list nat) (key : string) :
  columns (drop key (take_rows df idx)) = columns (drop key df).
Proof.
  unfold drop, take_rows, columns.
  induction df as [|[c s] rest IH]; [done|]. simpl.
  destruct (String.eqb c key); simpl; [|f_equal]; exact IH.
Qed.

Lemma imap_labels {B} (g : nat -> cell -> cell * B) (l : list cell) :
  (forall i c, fst (g i c) = c) -> map fst (imap g l) = l.
Proof.
  revert g. induction l as [|c rest IH]; intros g Hg; [done|].
  simpl. rewrite Hg. f_equal. apply IH. intros i d. apply Hg.
Qed.

(** C8 (as stated) fails: with the seasons 2024 and 2025 selected and the two
    default players A and E, player A has a row in each season and the
    comparison has three columns for two selected players. *)
Lemma comparison_three_columns_for_two_players :
  fst (App.main sample_files (A := stable_argsort)
         (choose "Search & Compare Free Agents" "Performance Data" "Hitters"
            [2024%Z; 2025%Z] (Some [VStr "A"; VStr "E"])) start) = Ok tt /\
  last (screen (snd (App.main sample_files (A := stable_argsort)
         (choose "Search & Compare Free Agents" "Performance Data" "Hitters"
            [2024%Z; 2025%Z] (Some [VStr "A"; VStr "E"])) start)))
  = Some (data_editor_transposed
            {| t_index := ["WAR"];
               t_columns := [(VStr "A", [VFloat (q 2 1)]);
                             (VStr "E", [VFloat (q 1 1)]);
                             (VStr "A", [VFloat (q 31 10)])] |}) /\
  length [(VStr "A", [VFloat (q 2 1)]); (VStr "E", [VFloat (q 1 1)]);
          (VStr "A", [VFloat (q 31 10)])] <> length [VStr "A"; VStr "E"].
Proof.
  split; [vm_compute; reflexivity|].
  split; [vm_compute; reflexivity|].
  discriminate.
Qed.

(** ** The two scripts side by side *)

Lemma bind_assoc_pointwise {X Y Z} (m : M X) (f : X -> M Y) (g : Y -> M Z)
    (k : X -> M Z) :
  (forall x w, (f x ≫= g) w = k x w) ->
  forall w, ((m ≫= f) ≫= g) w = (m ≫= k) w.
Proof.
  intros H w. unfold mbind, M_bind. destruct (m w) as [[a|e] w']; [|done].
  exact (H a w').
Qed.

Ltac common_step :=
  apply bind_assoc_pointwise; intros ? ?.

Lemma App_search_compare_split (data : Dataset) (i : inputs) (w : world) :
  (search_compare_common data i ≫= fun p =>
     App.comparison (player_type i) (selected_years i) (fst p) (snd p);;
     if eqs (player_type i) "Pitchers" then
       draw (markdown "### Pitch Type Usage & Performance");;
       pitch_dfs ← collect data "pitchers" "pitches" (selected_years i);
       selected_pitch_data ← (ts ← contents pitch_dfs; lift (pd_concat ts));
       selected_pitch_data ← lift (
         name ← getitem selected_pitch_data "Name";
         Ok (filter_rows selected_pitch_data (isin name (snd p))));
       if negb (empty selected_pitch_data) then
         draw (data_editor selected_pitch_data)
       else
         draw (warning "No pitch type data available for the selected players.")
     else mret tt) w
  = App.search_compare_page data i w.
Proof.
  revert w. unfold search_compare_common, App.search_compare_page. cbv zeta.
  do 10 common_step. reflexivity.
Qed.

Lemma FaTracker_search_compare_split (data : Dataset) (i : inputs) (w : world) :
  (search_compare_common data i ≫= fun p =>
     if eqs (player_type i) "Pitchers" then
       draw (markdown "### Pitch Type Usage & Performance");;
       pitch_dfs ← FaTracker.collect_pitches data (selected_years i);
       selected_pitch_data ← (ts ← contents pitch_dfs; lift (pd_concat ts));
       selected_pitch_data ← lift (
         name ← getitem selected_pitch_data "Name";
         Ok (filter_rows selected_pitch_data (isin name (snd p))));
       if negb (empty selected_pitch_data) then
         for_each (snd p) (FaTracker.pitcher_section selected_pitch_data)
       else
         draw (warning "No pitch type data available for the selected players.")
     else mret tt) w
  = FaTracker.search_compare_page data i w.
Proof.
  revert w. unfold search_compare_common, FaTracker.search_compare_page. cbv zeta.
  do 10 common_step. reflexivity.
Qed.

Lemma comparison_appends (player_type : string) (selected_years : list Z)
    (combined_df : DataFrame) (selected_players : list cell) (w : world) :
  exists r extra,
    App.comparison player_type selected_years combined_df selected_players w
    = (r, {| heap := heap w; screen := screen w ++ extra |}).
Proof.
  unfold App.comparison. destruct (length selected_players <? 2)%nat.
  - eexists _, _. reflexivity.
  - generalize (name ← getitem combined_df "Name";
                set_index_transpose
                  (filter_rows combined_df (isin name selected_players)) "Name").
    intros [T|e]; unfold mbind, M_bind, draw, lift; simpl.
    + exists (Ok tt), [markdown ("### " +:+ player_type +:+ " Comparison for " +:+
                                 years_text selected_years);
                       data_editor_transposed T].
      by rewrite <- app_assoc.
    + eexists _, _. reflexivity.
Qed.

Lemma sidebar_spec (w : world) :
  sidebar w
  = (Ok tt,
     {| heap := heap w;
        screen := screen w ++
          [sidebar_title "MLB Free Agent Analysis";
           sidebar_markdown
             "***Created and updated by Carly Mitchell. (carlymbaseball@gmail.com)***";
           sidebar_radio "Select a Page" pages] |}).
Proof.
  unfold sidebar, mbind, M_bind, draw. simpl. by rewrite <- !app_assoc.
Qed.

Lemma bind_run {X Y} (m : M X) (f : X -> M Y) (w : world) :
  (m ≫= f) w
  = match m w with
    | (Ok a, w') => f a w'
    | (Raise e, w') => (Raise e, w')
    end.
Proof. reflexivity. Qed.

Lemma App_main_run (read_csv : string -> result DataFrame) (A : Argsort)
    (i : inputs) (w : world) :
  App.main read_csv i w
  = match load_data read_csv w with
    | (Ok data, w1) =>
        (if eqs (page i) "Home" then App.home_page
         else if eqs (page i) "Search & Compare Free Agents"
              then App.search_compare_page data i
         else if eqs (page i) "2025 Free Agents" then App.free_agents_2025_page data i
         else if eqs (page i) "Top Leaders" then App.top_leaders_page data i
         else mret tt) (with_sidebar w1)
    | (Raise e, w1) => (Raise e, w1)
    end.
Proof.
  unfold App.main. rewrite bind_run.
  destruct (load_data read_csv w) as [[data|e] w1]; [|done].
  rewrite bind_run, sidebar_spec. reflexivity.
Qed.

Lemma FaTracker_main_run (read_csv : string -> result DataFrame) (A : Argsort)
    (i : inputs) (w : world) :
  FaTracker.main read_csv i w
  = match load_data read_csv w with
    | (Ok data, w1) =>
        ((if eqs (page i) "Home" then FaTracker.home_page else mret tt);;
         if eqs (page i) "Search & Compare Free Agents"
         then FaTracker.search_compare_page data i
         else if eqs (page i) "2025 Free Agents"
              then FaTracker.free_agents_2025_page data i
         else if eqs (page i) "Top Leaders" then FaTracker.top_leaders_page data i
         else mret tt) (with_sidebar w1)
    | (Raise e, w1) => (Raise e, w1)
    end.
Proof.
  unfold FaTracker.main. rewrite bind_run.
  destruct (load_data read_csv w) as [[data|e] w1]; [|done].
  rewrite bind_run, sidebar_spec. reflexivity.
Qed.

(** C4 (as stated) fails: on Search & Compare for the hitters of 2025,
    [app.py] draws the comparison heading and table after the player
    selection and [fa_tracker.py] does not. *)
Lemma entry_points_differ :
  length (screen (snd (App.main sample_files (A := stable_argsort)
     (choose "Search & Compare Free Agents" "Performance Data" "Hitters"
        [2025%Z] None) start))) = 12%nat /\
  length (screen (snd (FaTracker.main sample_files (A := stable_argsort)
     (choose "Search & Compare Free Agents" "Performance Data" "Hitters"
        [2025%Z] None) start))) = 10%nat /\
  App.main sample_files (A := stable_argsort)
    (choose "Search & Compare Free Agents" "Performance Data" "Hitters"
       [2025%Z] None) start
  <> FaTracker.main sample_files (A := stable_argsort)
       (choose "Search & Compare Free Agents" "Performance Data" "Hitters"
          [2025%Z] None) start.
Proof.
  assert (H1 : length (screen (snd (App.main sample_files (A := stable_argsort)
                 (choose "Search & Compare Free Agents" "Performance Data" "Hitters"
                    [2025%Z] None) start))) = 12%nat) by (vm_compute; reflexivity).
  assert (H2 : length (screen (snd (FaTracker.main sample_files (A := stable_argsort)
                 (choose "Search & Compare Free Agents" "Performance Data" "Hitters"
                    [2025%Z] None) start))) = 10%nat) by (vm_compute; reflexivity).
  split; [exact H1|]. split; [exact H2|].
  intros Heq. rewrite Heq in H1. rewrite H1 in H2. clear Heq. discriminate H2.
Qed.

(** ** Positions and reordering *)

Lemma iloc_app {A} (l : list A) (idx1 idx2 : list nat) :
  iloc l (idx1 ++ idx2) = iloc l idx1 ++ iloc l idx2.
Proof. unfold iloc. apply omap_app. Qed.

Lemma iloc_in_range {A} (l : list A) (idx : list nat) :
  Forall (fun i => (i < length l)%nat) idx ->
  Forall2 (fun i x => l !! i = Some x) idx (iloc l idx).
Proof.
  unfold iloc. induction 1 as [|i rest Hi _ IH]; [constructor|].
  cbn [omap list_omap]. destruct (lookup_lt_is_Some_2 l i Hi) as [x Hx].
  rewrite Hx. by constructor.
Qed.

Lemma iloc_length {A} (l : list A) (idx : list nat) :
  Forall (fun i => (i < length l)%nat) idx -> length (iloc l idx) = length idx.
Proof. intros H. symmetry. eapply Forall2_length, iloc_in_range, H. Qed.

Lemma iloc_lookup {A} (l : list A) (idx : list nat) (k : nat) :
  Forall (fun i => (i < length l)%nat) idx ->
  iloc l idx !! k = idx !! k ≫= (fun i => l !! i).
Proof.
  intros H. pose proof (iloc_in_range l idx H) as H2.
  destruct (idx !! k) as [i|] eqn:Hk; simpl.
  - destruct (Forall2_lookup_l _ _ _ _ _ H2 Hk) as (x & Hx & Hl). by rewrite Hx.
  - apply lookup_ge_None. rewrite iloc_length by done. by apply lookup_ge_None.
Qed.

Lemma iloc_iloc {A} (l : list A) (idx order : list nat) :
  Forall (fun i => (i < length l)%nat) idx ->
  iloc l (iloc idx order) = iloc (iloc l idx) order.
Proof.
  intros H. induction order as [|k rest IH]; [done|].
  unfold iloc at 2 3. cbn [omap list_omap]. fold (iloc idx rest). fold (iloc (iloc l idx) rest).
  rewrite (iloc_lookup l idx k H).
  destruct (idx !! k) as [i|] eqn:Hk; simpl.
  - unfold iloc at 1. cbn [omap list_omap]. fold (iloc l (iloc idx rest)).
    destruct (l !! i); by rewrite IH.
  - exact IH.
Qed.

Lemma iloc_rev {A} (l : list A) (idx : list nat) :
  iloc l (rev idx) = rev (iloc l idx).
Proof.
  induction idx as [|i rest IH]; [done|]. simpl. rewrite iloc_app, IH.
  unfold iloc at 2 3. cbn [omap list_omap]. destruct (l !! i); simpl; [done|].
  by rewrite app_nil_r.
Qed.

Lemma iloc_seq_middle {A} (pre l post : list A) :
  iloc (pre ++ l ++ post) (seq (length pre) (length l)) = l.
Proof.
  revert pre. induction l as [|x rest IH]; intros pre; [done|]. simpl.
  unfold iloc. cbn [omap list_omap]. rewrite list_lookup_middle by done.
  f_equal. specialize (IH (pre ++ [x])). rewrite <- app_assoc in IH. simpl in IH.
  rewrite length_app in IH. simpl in IH. by rewrite Nat.add_1_r in IH.
Qed.

Lemma iloc_seq {A} (l : list A) : iloc l (seq 0 (length l)) = l.
Proof.
  pose proof (iloc_seq_middle [] l []) as H. simpl in H. by rewrite app_nil_r in H.
Qed.

Lemma iloc_seq_firstn {A} (l : list A) (m : nat) :
  (m <= length l)%nat -> iloc l (seq 0 m) = firstn m l.
Proof.
  intros Hm. pose proof (iloc_seq_middle [] (firstn m l) (skipn m l)) as H.
  simpl in H. rewrite firstn_skipn in H. rewrite length_firstn in H.
  by replace (Nat.min m (length l)) with m in H by lia.
Qed.

Lemma iloc_Permutation {A} (l : list A) (idx idx' : list nat) :
  Permutation idx idx' -> Permutation (iloc l idx) (iloc l idx').
Proof. intros H. unfold iloc. by rewrite H. Qed.

Lemma iloc_elem {A} (l : list A) (idx : list nat) (x : A) :
  x ∈ iloc l idx -> x ∈ l.
Proof.
  unfold iloc. intros H. apply list_elem_of_omap in H as (i & _ & Hi).
  by eapply list_elem_of_lookup_2.
Qed.

(** the positions of a mask, counted from [k] *)
Lemma nonzero_shift (k : nat) (mask : list bool) :
  map fst (List.filter snd (combine (seq k (length mask)) mask))
  = match mask with
    | [] => []
    | b :: rest =>
        (if b then [k] else []) ++
        map fst (List.filter snd (combine (seq (S k) (length rest)) rest))
    end.
Proof. destruct mask as [|[] rest]; reflexivity. Qed.

Lemma nonzero_partition (k : nat) (mask : list bool) :
  Permutation
    (map fst (List.filter snd (combine (seq k (length (map negb mask))) (map negb mask))) ++
     map fst (List.filter snd (combine (seq k (length mask)) mask)))
    (seq k (length mask)).
Proof.
  revert k. induction mask as [|b rest IH]; intros k; [done|].
  rewrite (nonzero_shift k (map negb (b :: rest))), (nonzero_shift k (b :: rest)).
  cbn [map]. specialize (IH (S k)). simpl seq.
  destruct b; simpl.
  - rewrite <- Permutation_middle. by constructor.
  - by constructor.
Qed.

Lemma nonzero_Permutation (mask : list bool) :
  Permutation (nonzero (map negb mask) ++ nonzero mask) (seq 0 (length mask)).
Proof. apply nonzero_partition. Qed.

Lemma Permutation_seq_range (idx : list nat) (n : nat) :
  Permutation idx (seq 0 n) -> Forall (fun i => (i < n)%nat) idx.
Proof.
  intros H. apply Forall_forall. intros i Hi. rewrite H in Hi.
  apply elem_of_seq in Hi. lia.
Qed.

Lemma nonzero_range (mask : list bool) :
  Forall (fun i => (i < length mask)%nat) (nonzero mask).
Proof.
  pose proof (Permutation_seq_range _ _ (nonzero_Permutation mask)) as H.
  apply Forall_app in H. tauto.
Qed.

(** ** The two insertion sorts meet numpy's contract *)

Section Insertion.
Context {K : Type} (leb : K -> K -> bool) (after_equal : bool).

Lemma insert_position_Permutation (x : nat * K) (sorted : list (nat * K)) :
  Permutation (insert_position leb after_equal x sorted) (x :: sorted).
Proof.
  induction sorted as [|y rest IH]; [done|]. simpl.
  destruct (if after_equal then _ else _); [|done].
  rewrite IH. apply perm_swap.
Qed.

Lemma insertion_sort_Permutation_acc (l acc : list (nat * K)) :
  Permutation
    (fold_left (fun acc x => insert_position leb after_equal x acc) l acc)
    (l ++ acc).
Proof.
  revert acc. induction l as [|x rest IH]; intros acc; [done|]. simpl.
  rewrite IH, insert_position_Permutation. by rewrite Permutation_middle.
Qed.

Lemma insertion_sort_Permutation (l : list (nat * K)) :
  Permutation (insertion_sort leb after_equal l) l.
Proof.
  unfold insertion_sort. rewrite insertion_sort_Permutation_acc. by rewrite app_nil_r.
Qed.

Context (Htotal : total leb) (Htrans : transitive leb).

Lemma insert_position_sorted (x : nat * K) (sorted : list (nat * K)) :
  StronglySorted (fun p r => leb (snd p) (snd r) = true) sorted ->
  StronglySorted (fun p r => leb (snd p) (snd r) = true)
                 (insert_position leb after_equal x sorted).
Proof.
  induction 1 as [|y rest Hrest IH Hy]; simpl.
  - repeat constructor.
  - assert (Hcase : (if after_equal then leb (snd y) (snd x)
                     else negb (leb (snd x) (snd y))) = true ->
                    leb (snd y) (snd x) = true).
    { destruct after_equal; [done|]. intros Hn. apply negb_true_iff in Hn.
      destruct (Htotal (snd x) (snd y)); congruence. }
    assert (Hstop : (if after_equal then leb (snd y) (snd x)
                     else negb (leb (snd x) (snd y))) = false ->
                    leb (snd x) (snd y) = true).
    { destruct after_equal.
      - intros Hn. destruct (Htotal (snd x) (snd y)); congruence.
      - intros Hn. by apply negb_false_iff in Hn. }
    destruct (if after_equal then _ else _) eqn:Hc.
    + constructor; [done|].
      apply Forall_forall. intros z Hz.
      rewrite insert_position_Permutation in Hz.
      apply elem_of_cons in Hz as [->|Hz]; [by apply Hcase|].
      by eapply Forall_forall in Hy.
    + specialize (Hstop eq_refl). constructor; [by constructor|].
      constructor; [done|]. eapply Forall_impl; [exact Hy|].
      intros z Hz. simpl in Hz. by eapply Htrans.
Qed.

Lemma insertion_sort_sorted_acc (l acc : list (nat * K)) :
  StronglySorted (fun p r => leb (snd p) (snd r) = true) acc ->
  StronglySorted (fun p r => leb (snd p) (snd r) = true)
    (fold_left (fun acc x => insert_position leb after_equal x acc) l acc).
Proof.
  revert acc. induction l as [|x rest IH]; intros acc Hacc; [done|]. simpl.
  apply IH. by apply insert_position_sorted.
Qed.

Lemma insertion_sort_sorted (l : list (nat * K)) :
  StronglySorted (fun p r => leb (snd p) (snd r) = true)
                 (insertion_sort leb after_equal l).
Proof. apply insertion_sort_sorted_acc. constructor. Qed.
End Insertion.

Lemma combine_seq_fst {K} (k : nat) (l : list K) :
  map fst (combine (seq k (length l)) l) = seq k (length l).
Proof.
  revert k. induction l as [|x rest IH]; intros k; [done|]. simpl. by rewrite IH.
Qed.

Lemma combine_seq_lookup {K} (pre l : list K) :
  Forall (fun p => (pre ++ l) !! (fst p) = Some (snd p))
         (combine (seq (length pre) (length l)) l).
Proof.
  revert pre. induction l as [|x rest IH]; intros pre; [constructor|]. simpl.
  constructor.
  - simpl. by rewrite list_lookup_middle.
  - specialize (IH (pre ++ [x])). rewrite <- app_assoc in IH. simpl in IH.
    rewrite length_app in IH. simpl in IH. by rewrite Nat.add_1_r in IH.
Qed.

Lemma iloc_pairs {K} (l : list K) (ps : list (nat * K)) :
  Forall (fun p => l !! (fst p) = Some (snd p)) ps ->
  iloc l (map fst ps) = map snd ps.
Proof.
  induction 1 as [|[i x] rest Hp _ IH]; [done|]. simpl in *.
  unfold iloc in *. cbn [omap list_omap]. rewrite Hp. by f_equal.
Qed.

Lemma insertion_argsort_sorts (after_equal : bool) :
  sorts (insertion_argsort after_equal).
Proof.
  intros K leb l. unfold argsort, insertion_argsort. split.
  - rewrite (insertion_sort_Permutation leb after_equal). by rewrite combine_seq_fst.
  - intros Htotal Htrans. rewrite iloc_pairs.
    + eapply (StronglySorted_fmap snd (fun p r => leb (snd p) (snd r) = true));
        [done|]. by apply insertion_sort_sorted.
    + pose proof (combine_seq_lookup [] l) as H. simpl in H.
      eapply Forall_forall. intros p Hp.
      rewrite (insertion_sort_Permutation leb after_equal) in Hp.
      by eapply Forall_forall in H.
Qed.

(** ** pandas' descending argsort *)

Lemma StronglySorted_rev {X} (R : X -> X -> Prop) (l : list X) :
  StronglySorted R l -> StronglySorted (fun x y => R y x) (rev l).
Proof.
  induction 1 as [|x rest Hrest IH Hx]; simpl; [constructor|].
  apply StronglySorted_app_2; [|done|repeat constructor].
  intros y z Hy Hz. apply list_elem_of_singleton in Hz as ->.
  apply list_elem_of_In, in_rev, list_elem_of_In in Hy.
  by eapply Forall_forall in Hx.
Qed.

Section Nargsort.
Context (A : Argsort) (Hsorts : sorts A).
Context {K : Type} (leb : K -> K -> bool) (isna : K -> bool).

Lemma nargsort_Permutation (items : list K) :
  Permutation (nargsort leb isna items) (seq 0 (length items)).
Proof.
  unfold nargsort.
  set (mask := map isna items).
  set (nn := nonzero (map negb mask)).
  set (na := nonzero mask).
  set (non_nans := rev (iloc items nn)).
  assert (Hnn : Forall (fun i => (i < length items)%nat) nn).
  { pose proof (nonzero_range (map negb mask)) as H.
    unfold mask in H. by rewrite !length_map in H. }
  assert (Hlen : length non_nans = length (rev nn)).
  { unfold non_nans. rewrite !length_rev. by apply iloc_length. }
  destruct (Hsorts K leb non_nans) as [Hperm _].
  rewrite Permutation_rev' ; [|reflexivity].
  rewrite <- Permutation_rev.
  rewrite (iloc_Permutation (rev nn) _ _ Hperm), Hlen, iloc_seq.
  rewrite <- Permutation_rev.
  replace (length items) with (length mask) by (unfold mask; by rewrite length_map).
  apply nonzero_Permutation.
Qed.

Context (Htotal : total leb) (Htrans : transitive leb).

Lemma nargsort_sorted (items : list K) :
  StronglySorted (descending leb isna) (iloc items (nargsort leb isna items)).
Proof.
  unfold nargsort.
  set (mask := map isna items).
  set (nn := nonzero (map negb mask)).
  set (na := nonzero mask).
  set (non_nans := rev (iloc items nn)).
  assert (Hnn : Forall (fun i => (i < length items)%nat) nn).
  { pose proof (nonzero_range (map negb mask)) as H.
    unfold mask in H. by rewrite !length_map in H. }
  assert (Hpresent : iloc items nn = List.filter (fun x => negb (isna x)) items).
  { unfold nn, mask. rewrite map_map. apply iloc_nonzero. }
  assert (Hmissing : iloc items na = List.filter isna items).
  { unfold na, mask. apply iloc_nonzero. }
  destruct (Hsorts K leb non_nans) as [Hperm Hsorted].
  specialize (Hsorted Htotal Htrans).
  rewrite iloc_app, iloc_rev.
  rewrite iloc_iloc by (apply Forall_forall; intros i Hi;
    apply list_elem_of_In, in_rev, list_elem_of_In in Hi; by eapply Forall_forall in Hnn).
  rewrite iloc_rev. fold non_nans. rewrite Hmissing.
  apply StronglySorted_app_2.
  - intros x y Hx Hy. left.
    apply list_elem_of_In, List.filter_In in Hy. tauto.
  - eapply (StronglySorted_rev _ _) in Hsorted.
    assert (Hall : Forall (fun x => isna x = false) (rev (iloc non_nans (argsort K leb non_nans)))).
    { apply Forall_forall. intros x Hx.
      apply list_elem_of_In, in_rev, list_elem_of_In, iloc_elem in Hx.
      unfold non_nans in Hx. apply list_elem_of_In, in_rev in Hx.
      rewrite Hpresent in Hx. apply List.filter_In in Hx as [_ Hx].
      by apply negb_true_iff in Hx. }
    revert Hsorted Hall. generalize (rev (iloc non_nans (argsort K leb non_nans))).
    induction 1 as [|x rest Hrest IH Hx]; intros Hall; [constructor|].
    apply Forall_cons in Hall as [Hxna Hall].
    constructor; [by apply IH|].
    eapply Forall_impl; [exact Hx|]. intros y Hy. by right.
  - generalize (List.filter_In isna). intros Hin.
    assert (Hall : Forall (fun x => isna x = true) (List.filter isna items)).
    { apply Forall_forall. intros x Hx. apply list_elem_of_In, Hin in Hx. tauto. }
    revert Hall. generalize (List.filter isna items).
    induction 1 as [|x rest Hx Hrest IH]; [constructor|].
    constructor; [done|]. eapply Forall_impl; [exact Hrest|]. intros y Hy. by left.
Qed.
End Nargsort.

(** ** Top Leaders *)

Lemma float_leb_total : total float_leb.
Proof.
  intros [p|[]|] [r|[]|]; simpl; auto.
  destruct (Qlt_le_dec p r) as [H|H].
  - left. apply Qle_bool_iff. by apply Qlt_le_weak.
  - right. by apply Qle_bool_iff.
Qed.

Lemma float_leb_transitive : transitive float_leb.
Proof.
  intros [p|[]|] [r|[]|] [s|[]|]; simpl; try done.
  rewrite !Qle_bool_iff. apply Qle_trans.
Qed.

Lemma take_rows_take_rows (t : DataFrame) (n : nat) (full idx : list nat) :
  rectangular t n ->
  Forall (fun i => (i < n)%nat) full ->
  take_rows (take_rows t full) idx = take_rows t (iloc full idx).
Proof.
  intros Hrect Hfull. unfold take_rows. rewrite map_map.
  induction Hrect as [|[c s] rest Hs _ IH]; [done|]. simpl. f_equal; [|exact IH].
  f_equal. simpl in Hs. unfold series_length in Hs.
  destruct s as [values|xs]; simpl in *.
  - rewrite iloc_iloc; [done|]. by rewrite Hs.
  - rewrite length_map in Hs. rewrite iloc_iloc; [done|]. by rewrite Hs.
Qed.

Lemma nrows_take_rows (t : DataFrame) (n : nat) (full : list nat) :
  t <> [] -> rectangular t n ->
  Forall (fun i => (i < n)%nat) full ->
  nrows (take_rows t full) = length full.
Proof.
  intros Hne Hrect Hfull. destruct t as [|[c s] rest]; [done|].
  apply Forall_cons in Hrect as [Hs _]. simpl in *. unfold series_length in *.
  rewrite cells_series_iloc. apply iloc_length. by rewrite Hs.
Qed.

(** C3 (as the code has it). For every sort that meets numpy's contract,
    Top Leaders shows [min 10 n] distinct rows of the table, in descending
    order of the selected statistic with missing values last, and no row left
    out has a larger value than a row shown. The order among rows with equal
    values is whatever the sort gives. *)
Theorem top_leaders_rows (A : Argsort) (t : DataFrame) (stat : string) (xs : list float) :
  sorts A ->
  getitem t stat = Ok (float64 xs) ->
  rectangular t (length xs) ->
  exists idx : list nat,
    head 10 <$> sort_values t stat = Ok (take_rows t idx) /\
    length idx = Nat.min 10 (length xs) /\
    NoDup idx /\
    Forall (fun i => (i < length xs)%nat) idx /\
    StronglySorted (descending float_leb is_nanf) (iloc xs idx) /\
    (forall i j x y, i ∈ idx -> j ∉ idx ->
       xs !! i = Some x -> xs !! j = Some y ->
       descending float_leb is_nanf x y).
Proof.
  intros Hsorts Hget Hrect.
  set (full := nargsort float_leb is_nanf xs).
  pose proof (nargsort_Permutation A Hsorts float_leb is_nanf xs) as Hperm.
  pose proof (nargsort_sorted A Hsorts float_leb is_nanf
                float_leb_total float_leb_transitive xs) as Hsorted.
  fold full in Hperm, Hsorted.
  assert (Hrange : Forall (fun i => (i < length xs)%nat) full)
    by (by apply Permutation_seq_range).
  assert (Hlen : length full = length xs)
    by (by rewrite (Permutation_length Hperm), length_seq).
  assert (Hne : t <> []) by (intros ->; discriminate Hget).
  exists (firstn (Nat.min 10 (length xs)) full).
  assert (Hsplit : full = firstn (Nat.min 10 (length xs)) full ++
                          skipn (Nat.min 10 (length xs)) full)
    by (by rewrite firstn_skipn).
  split; [|split; [|split; [|split; [|split]]]].
  - unfold sort_values, sort_indexer. rewrite Hget. simpl. fold full.
    unfold head. rewrite (nrows_take_rows t (length xs)) by done.
    rewrite (take_rows_take_rows t (length xs)) by done.
    rewrite Hlen. rewrite iloc_seq_firstn by lia. done.
  - rewrite length_firstn. lia.
  - assert (Hnd : NoDup full) by (rewrite Hperm; apply NoDup_seq).
    rewrite Hsplit in Hnd. apply NoDup_app in Hnd. tauto.
  - rewrite Hsplit in Hrange. apply Forall_app in Hrange. tauto.
  - rewrite Hsplit, iloc_app in Hsorted. by apply StronglySorted_app_1_l in Hsorted.
  - intros i j x y Hi Hj Hx Hy.
    rewrite Hsplit, iloc_app in Hsorted.
    eapply StronglySorted_app_1_elem_of; [exact Hsorted| |].
    + apply list_elem_of_omap. by exists i.
    + apply list_elem_of_omap. exists j. split; [|done].
      assert (Hjfull : j ∈ full).
      { rewrite Hperm. apply elem_of_seq. apply lookup_lt_Some in Hy. lia. }
      rewrite Hsplit in Hjfull. apply elem_of_app in Hjfull as [Hj'|Hj']; [done|done].
Qed.

Lemma top_leaders_rows_witness :
  exists idx : list nat,
    head 10 <$> sort_values (A := stable_argsort) war_sample "WAR"
      = Ok (take_rows war_sample idx) /\
    length idx = 4%nat.
Proof.
  destruct (top_leaders_rows stable_argsort war_sample "WAR"
              [q 31 10; q 5 1; q 12 10; q 5 1]) as (idx & H1 & H2 & _).
  - apply insertion_argsort_sorts.
  - reflexivity.
  - repeat constructor.
  - exists idx. split; [exact H1 | exact H2].
Defined.

(** C3 (as stated) fails: a sort that meets numpy's contract and puts equal
    keys in the other order shows D before B on the table of the claim. *)
Lemma top_leaders_ties_not_in_row_order :
  sorts unstable_argsort /\
  head 10 <$> sort_values (A := unstable_argsort) war_sample "WAR"
    = Ok [("Name", object [VStr "D"; VStr "B"; VStr "A"; VStr "C"]);
          ("WAR", float64 [q 5 1; q 5 1; q 31 10; q 12 10])] /\
  ~ (forall A : Argsort, sorts A ->
       head 10 <$> sort_values (A := A) war_sample "WAR"
       = Ok [("Name", object [VStr "B"; VStr "D"; VStr "A"; VStr "C"]);
             ("WAR", float64 [q 5 1; q 5 1; q 31 10; q 12 10])]).
Proof.
  assert (E : head 10 <$> sort_values (A := unstable_argsort) war_sample "WAR"
              = Ok [("Name", object [VStr "D"; VStr "B"; VStr "A"; VStr "C"]);
                    ("WAR", float64 [q 5 1; q 5 1; q 31 10; q 12 10])])
    by (vm_compute; reflexivity).
  split; [apply insertion_argsort_sorts|]. split; [exact E|].
  intros H. specialize (H unstable_argsort (insertion_argsort_sorts false)).
  rewrite E in H. discriminate H.
Qed.

(** With a sort that keeps equal keys in their order the table of the claim
    comes out as the claim has it. *)
Lemma top_leaders_stable_example :
  head 10 <$> sort_values (A := stable_argsort) war_sample "WAR"
  = Ok [("Name", object [VStr "B"; VStr "D"; VStr "A"; VStr "C"]);
        ("WAR", float64 [q 5 1; q 5 1; q 31 10; q 12 10])].
Proof. vm_compute. reflexivity. Qed.

(** ** The comparison table, cell by cell *)

Lemma nonzero_positions_from {X} (f : X -> bool) (pre l : list X) :
  map fst (List.filter snd (combine (seq (length pre) (length l)) (map f l)))
  = List.filter (fun i => match (pre ++ l) !! i with
                          | Some c => f c
                          | None => false
                          end) (seq (length pre) (length l)).
Proof.
  revert pre. induction l as [|x l IH]; intros pre; [reflexivity|].
  cbn [length seq map combine List.filter snd].
  rewrite (list_lookup_middle pre l x (length pre) eq_refl).
  specialize (IH (pre ++ [x])). rewrite length_app, <- app_assoc in IH.
  cbn [length app] in IH. rewrite Nat.add_1_r in IH.
  destruct (f x); cbn [map fst]; by rewrite IH.
Qed.

Lemma nonzero_positions {X} (f : X -> bool) (l : list X) :
  nonzero (map f l)
  = List.filter (fun i => match l !! i with Some c => f c | None => false end)
                (seq 0 (length l)).
Proof. unfold nonzero. rewrite length_map. exact (nonzero_positions_from f [] l). Qed.

Lemma positions_in_range (g : nat -> bool) (n : nat) :
  Forall (fun i => (i < n)%nat) (List.filter g (seq 0 n)).
Proof.
  apply Forall_forall. intros i Hi. apply list_elem_of_In, filter_In in Hi as [Hi _].
  apply in_seq in Hi. lia.
Qed.

Lemma drop_take_rows (key : string) (df : DataFrame) (idx : list nat) :
  drop key (take_rows df idx) = take_rows (drop key df) idx.
Proof.
  unfold drop, take_rows. induction df as [|[c s] rest IH]; [reflexivity|].
  cbn [map List.filter fst snd]. destruct (negb (c =? key)%string); cbn [map fst snd];
    by rewrite IH.
Qed.

Lemma rectangular_drop (key : string) (df : DataFrame) (n : nat) :
  rectangular df n -> rectangular (drop key df) n.
Proof.
  unfold rectangular, drop. intros H. apply Forall_forall. intros p Hp.
  apply list_elem_of_In, filter_In in Hp as [Hp _].
  rewrite Forall_forall in H. by apply H, list_elem_of_In.
Qed.

(** Row [j] of the rows taken at [idx] is row [idx !! j] of the frame. *)
Lemma row_take_rows (df : DataFrame) (idx : list nat) (n j i : nat) :
  rectangular df n -> Forall (fun i => (i < n)%nat) idx -> idx !! j = Some i ->
  Forall2 (fun p v => cells (snd p) !! i = Some v) df (row (take_rows df idx) j).
Proof.
  intros Hrect Hidx Hj. unfold row, take_rows.
  induction Hrect as [|[c s] rest Hs _ IH]; [constructor|].
  cbn [map omap list_omap fst snd]. cbn [snd] in Hs.
  rewrite cells_series_iloc, iloc_lookup, Hj by (by unfold series_length in Hs; rewrite Hs).
  cbn [mbind option_bind].
  assert (Hi : (i < length (cells s))%nat).
  { unfold series_length in Hs. rewrite Hs.
    rewrite Forall_forall in Hidx. by eapply Hidx, list_elem_of_lookup_2. }
  destruct (lookup_lt_is_Some_2 _ _ Hi) as [v Hv]. rewrite Hv.
  constructor; [exact Hv|exact IH].
Qed.

(** C8 (as the code has it). With fewer than two players selected the
    comparison draws the warning and nothing else. With two or more it draws
    the heading and hands the data editor the transposed table: its rows are
    the columns of the combined table other than [Name]; its columns are, in
    row order, the rows of the combined table whose name is selected, each
    labelled by that row's name and holding that row's values. These are as
    many columns as selected players when the names of the combined table
    are distinct and the selection is made of distinct names of the
    table. *)
Theorem comparison_columns (player_type : string) (selected_years : list Z)
    (combined_df : DataFrame) (selected_players : list cell) (name : Series)
    (w : world) :
  getitem combined_df "Name" = Ok name ->
  ((length selected_players < 2)%nat ->
     App.comparison player_type selected_years combined_df selected_players w
     = (Ok tt,
        {| heap := heap w;
           screen := screen w ++
             [warning "Please select at least 2 players for comparison."] |}))
  /\ ((2 <= length selected_players)%nat ->
      exists T : Transposed,
        App.comparison player_type selected_years combined_df selected_players w
        = (Ok tt,
           {| heap := heap w;
              screen := screen w ++
                [markdown ("### " +:+ player_type +:+ " Comparison for " +:+
                           years_text selected_years);
                 data_editor_transposed T] |}) /\
        t_index T = columns (drop "Name" combined_df) /\
        map fst (t_columns T)
        = List.filter (fun c => bool_decide (c ∈ selected_players)) (cells name) /\
        (rectangular combined_df (length (cells name)) ->
         Forall2 (fun (i : nat) (column : cell * list cell) =>
                    cells name !! i = Some (fst column) /\
                    Forall2 (fun (p : string * Series) (v : cell) =>
                               cells (snd p) !! i = Some v)
                            (drop "Name" combined_df) (snd column))
                 (List.filter (fun i => match cells name !! i with
                                        | Some c => bool_decide (c ∈ selected_players)
                                        | None => false
                                        end) (seq 0 (length (cells name))))
                 (t_columns T)) /\
        (NoDup (cells name) -> NoDup selected_players ->
         (forall c, c ∈ selected_players -> c ∈ cells name) ->
         length (t_columns T) = length selected_players)).
Proof.
  intros Hname. split.
  - intros Hlt. unfold App.comparison.
    apply Nat.ltb_lt in Hlt. rewrite Hlt. reflexivity.
  - intros Hge. unfold App.comparison.
    assert (Hlt : (length selected_players <? 2)%nat = false) by (apply Nat.ltb_ge; lia).
    rewrite Hlt. rewrite Hname. simpl.
    unfold set_index_transpose, filter_rows.
    rewrite getitem_take_rows, Hname. simpl.
    eexists. split.
    { unfold mbind, M_bind, draw, lift. simpl. rewrite <- app_assoc. reflexivity. }
    simpl. split; [apply columns_drop_take_rows|].
    assert (Hcols : map fst (imap (fun i name0 => (name0,
                      row (drop "Name" (take_rows combined_df
                             (nonzero (isin name selected_players)))) i))
                      (cells (series_iloc name (nonzero (isin name selected_players)))))
                    = List.filter (fun c => bool_decide (c ∈ selected_players)) (cells name)).
    { rewrite imap_labels by done. rewrite cells_series_iloc. unfold isin.
      apply iloc_nonzero. }
    split; [exact Hcols|]. split.
    + intros Hrect. rewrite drop_take_rows, cells_series_iloc.
      unfold isin. rewrite nonzero_positions.
      set (idx := List.filter _ (seq 0 (length (cells name)))).
      assert (Hidx : Forall (fun i => (i < length (cells name))%nat) idx)
        by apply positions_in_range.
      pose proof (iloc_in_range (cells name) idx Hidx) as Hnames.
      apply Forall2_same_length_lookup_2.
      { rewrite length_imap. exact (Forall2_length _ _ _ Hnames). }
      intros j i column Hj Hcol.
      apply list_lookup_imap_Some in Hcol as (c & Hc & ->). cbn [fst snd].
      destruct (Forall2_lookup_l _ _ _ _ _ Hnames Hj) as (c' & Hc' & Hi).
      rewrite Hc in Hc'. injection Hc' as <-. split; [exact Hi|].
      eapply row_take_rows; [|exact Hidx|exact Hj]. by apply rectangular_drop.
    + intros Hn Hs Hsub.
      rewrite <- (length_map fst). rewrite Hcols. by apply filter_isin_length.
Qed.

Lemma comparison_columns_witness :
  exists T : Transposed,
    App.comparison "Hitters" [2025%Z] war_sample [VStr "A"; VStr "B"] start
    = (Ok tt,
       {| heap := [];
          screen := [markdown "### Hitters Comparison for 2025";
                     data_editor_transposed T] |}) /\
    t_index T = ["WAR"] /\
    t_columns T = [(VStr "A", [VFloat (q 31 10)]); (VStr "B", [VFloat (q 5 1)])] /\
    length (t_columns T) = 2%nat.
Proof.
  destruct (comparison_columns "Hitters" [2025%Z] war_sample [VStr "A"; VStr "B"]
              (object [VStr "A"; VStr "B"; VStr "C"; VStr "D"]) start)
    as [_ Htwo]; [reflexivity|].
  destruct Htwo as (T & Hrun & Hindex & _ & Hcells & Hlen); [cbn; lia|].
  exists T. split; [exact Hrun|]. split; [exact Hindex|].
  assert (Hcols : t_columns T
                  = [(VStr "A", [VFloat (q 31 10)]); (VStr "B", [VFloat (q 5 1)])]).
  { assert (Hrect : rectangular war_sample
                      (length (cells (object [VStr "A"; VStr "B"; VStr "C"; VStr "D"]))))
      by (repeat constructor).
    specialize (Hcells Hrect).
    change (List.filter _ (seq 0 _)) with [0%nat; 1%nat] in Hcells.
    apply Forall2_cons_inv_l in Hcells as ([n0 c0] & cols0 & [Hn0 Hc0] & Hcells & ->).
    apply Forall2_cons_inv_l in Hcells as ([n1 c1] & cols1 & [Hn1 Hc1] & Hcells & ->).
    apply Forall2_nil_inv_l in Hcells as ->.
    cbn in Hn0, Hn1. injection Hn0 as <-. injection Hn1 as <-.
    change (drop "Name" war_sample)
      with [("WAR", float64 [q 31 10; q 5 1; q 12 10; q 5 1])] in Hc0, Hc1.
    cbn [snd] in Hc0, Hc1.
    apply Forall2_cons_inv_l in Hc0 as (v0 & vs0 & Hv0 & Hc0 & ->).
    apply Forall2_nil_inv_l in Hc0 as ->.
    apply Forall2_cons_inv_l in Hc1 as (v1 & vs1 & Hv1 & Hc1 & ->).
    apply Forall2_nil_inv_l in Hc1 as ->.
    cbn in Hv0, Hv1. injection Hv0 as <-. injection Hv1 as <-. reflexivity. }
  split; [exact Hcols|]. by rewrite Hcols.
Defined.

(** ** Runs, step by step *)

Lemma draw_run (e : element) (w : world) :
  draw e w = (Ok tt, {| heap := heap w; screen := screen w ++ [e] |}).
Proof. reflexivity. Qed.

Lemma deref_run (l : loc) (w : world) (t : DataFrame) :
  heap w !! l = Some t -> deref l w = (Ok t, w).
Proof. unfold deref. by intros ->. Qed.

Lemma lift_run {X} (r : result X) (w : world) : lift r w = (r, w).
Proof. reflexivity. Qed.

(** ** Computations that only add to the screen *)

Lemma extends_mret {X} (x : X) : extends_screen (mret x : M X).
Proof. intros w. exists []. by rewrite app_nil_r. Qed.

Lemma extends_lift {X} (r : result X) : extends_screen (lift r).
Proof. intros w. exists []. by rewrite app_nil_r. Qed.

Lemma extends_draw (e : element) : extends_screen (draw e).
Proof. intros w. by exists [e]. Qed.

Lemma extends_deref (l : loc) : extends_screen (deref l).
Proof.
  intros w. exists []. unfold deref. rewrite app_nil_r. by destruct (heap w !! l).
Qed.

Lemma extends_assign (l : loc) (t : DataFrame) : extends_screen (assign l t).
Proof. intros w. exists []. by rewrite app_nil_r. Qed.

Lemma extends_bind {X Y} (m : M X) (f : X -> M Y) :
  extends_screen m -> (forall x, extends_screen (f x)) -> extends_screen (m ≫= f).
Proof.
  intros Hm Hf w. rewrite bind_run. destruct (Hm w) as [extra1 H1].
  destruct (m w) as [[x|e] w1]; cbn [snd] in H1.
  - destruct (Hf x w1) as [extra2 H2]. exists (extra1 ++ extra2).
    by rewrite H2, H1, app_assoc.
  - by exists extra1.
Qed.

Lemma extends_for_each {X} (l : list X) (body : X -> M unit) :
  (forall x, extends_screen (body x)) -> extends_screen (for_each l body).
Proof.
  intros Hbody. induction l as [|x rest IH]; cbn [for_each].
  - apply extends_mret.
  - apply extends_bind; [apply Hbody|]. intros _. exact IH.
Qed.

Lemma extends_convert_currency_columns (df : loc) :
  extends_screen (convert_currency_columns df).
Proof.
  unfold convert_currency_columns.
  apply extends_bind; [apply extends_deref|]. intros t0.
  apply extends_bind; [|intros _; apply extends_mret].
  apply extends_for_each. intros col. unfold convert_body.
  apply extends_bind.
  { apply extends_bind; [apply extends_deref|]. intros t. apply extends_lift. }
  intros [values|xs]; [|apply extends_mret].
  apply extends_bind; [apply extends_lift|]. intros _.
  destruct (str_startswith_any "$" values); [|apply extends_mret].
  apply extends_bind; [apply extends_lift|]. intros xs.
  apply extends_bind; [apply extends_deref|]. intros t. apply extends_assign.
Qed.

Lemma extends_collect (data : Dataset) (category kind : string) (years : list Z) :
  extends_screen (collect data category kind years).
Proof.
  induction years as [|year rest IH]; cbn [collect]; [apply extends_mret|].
  apply extends_bind; [apply extends_lift|]. intros df.
  apply extends_bind; [apply extends_convert_currency_columns|]. intros df'.
  apply extends_bind; [exact IH|]. intros dfs. apply extends_mret.
Qed.

Lemma extends_collect_pitches (data : Dataset) (years : list Z) :
  extends_screen (FaTracker.collect_pitches data years).
Proof.
  induction years as [|year rest IH]; cbn [FaTracker.collect_pitches];
    [apply extends_mret|].
  apply extends_bind; [apply extends_lift|]. intros df.
  apply extends_bind; [apply extends_convert_currency_columns|]. intros df'.
  apply extends_bind; [apply extends_deref|]. intros t.
  apply extends_bind; [apply extends_assign|]. intros _.
  apply extends_bind; [exact IH|]. intros dfs. apply extends_mret.
Qed.

Lemma extends_contents (dfs : list loc) : extends_screen (contents dfs).
Proof.
  induction dfs as [|l rest IH]; cbn [contents]; [apply extends_mret|].
  apply extends_bind; [apply extends_deref|]. intros t.
  apply extends_bind; [exact IH|]. intros ts. apply extends_mret.
Qed.

Lemma extends_pitcher_section (selected_pitch_data : DataFrame) (pitcher : cell) :
  extends_screen (FaTracker.pitcher_section selected_pitch_data pitcher).
Proof.
  unfold FaTracker.pitcher_section.
  apply extends_bind; [apply extends_draw|]. intros _.
  apply extends_bind; [apply extends_lift|]. intros pitcher_data.
  destruct (empty pitcher_data); [apply extends_draw|].
  apply extends_bind; [apply extends_lift|]. intros [summary|]; apply extends_draw.
Qed.

(** the pitch tables of [app.py] (lines 102 to 114) *)
Lemma extends_app_pitches (data : Dataset) (i : inputs) (selected_players : list cell) :
  extends_screen
    (pitch_dfs ← collect data "pitchers" "pitches" (selected_years i);
     selected_pitch_data ← (ts ← contents pitch_dfs; lift (pd_concat ts));
     selected_pitch_data ← lift (
       name ← getitem selected_pitch_data "Name";
       Ok (filter_rows selected_pitch_data (isin name selected_players)));
     if negb (empty selected_pitch_data) then
       draw (data_editor selected_pitch_data)
     else
       draw (warning "No pitch type data available for the selected players.")).
Proof.
  apply extends_bind; [apply extends_collect|]. intros pitch_dfs.
  apply extends_bind.
  { apply extends_bind; [apply extends_contents|]. intros ts. apply extends_lift. }
  intros t. apply extends_bind; [apply extends_lift|]. intros t'.
  destruct (negb (empty t')); apply extends_draw.
Qed.

(** the pitch sections of [fa_tracker.py] (lines 107 to 169) *)
Lemma extends_fa_pitches (data : Dataset) (i : inputs) (selected_players : list cell) :
  extends_screen
    (pitch_dfs ← FaTracker.collect_pitches data (selected_years i);
     selected_pitch_data ← (ts ← contents pitch_dfs; lift (pd_concat ts));
     selected_pitch_data ← lift (
       name ← getitem selected_pitch_data "Name";
       Ok (filter_rows selected_pitch_data (isin name selected_players)));
     if negb (empty selected_pitch_data) then
       for_each selected_players (FaTracker.pitcher_section selected_pitch_data)
     else
       draw (warning "No pitch type data available for the selected players.")).
Proof.
  apply extends_bind; [apply extends_collect_pitches|]. intros pitch_dfs.
  apply extends_bind.
  { apply extends_bind; [apply extends_contents|]. intros ts. apply extends_lift. }
  intros t. apply extends_bind; [apply extends_lift|]. intros t'.
  destruct (negb (empty t')); [|apply extends_draw].
  apply extends_for_each. intros pitcher. apply extends_pitcher_section.
Qed.

(** ** The part of Search & Compare the scripts share *)

Lemma search_compare_common_ok (data : Dataset) (i : inputs) (w w0 : world)
    (combined_df : DataFrame) (selected : list cell) :
  search_compare_common data i w = (Ok (combined_df, selected), w0) ->
  exists name,
    getitem combined_df "Name" = Ok name /\
    selected = chosen (selected_players i) (firstn 2 (unique (cells name))).
Proof.
  unfold search_compare_common.
  repeat (rewrite bind_run, draw_run; cbv iota beta).
  rewrite bind_run. destruct (collect _ _ _ _ _) as [[dfs|e] w1]; [|discriminate].
  rewrite bind_run, bind_run. destruct (contents dfs w1) as [[ts|e] w2]; [|discriminate].
  rewrite lift_run. destruct (pd_concat ts) as [combined|e]; [|discriminate].
  repeat (rewrite bind_run, draw_run; cbv iota beta).
  rewrite bind_run, lift_run.
  destruct (getitem combined "Name") as [name|e] eqn:Hname; [|discriminate].
  cbn [fmap result_fmap]. rewrite bind_run, draw_run. cbv iota beta.
  intros [= <- <- <-]. by exists name.
Qed.

Lemma comparison_run (player_type : string) (selected_years : list Z)
    (combined_df : DataFrame) (selected_players : list cell) (name : Series)
    (w : world) :
  getitem combined_df "Name" = Ok name ->
  exists part : list element,
    (part = [warning "Please select at least 2 players for comparison."] \/
     exists T : Transposed,
       part = [markdown ("### " +:+ player_type +:+ " Comparison for " +:+
                         years_text selected_years);
               data_editor_transposed T]) /\
    App.comparison player_type selected_years combined_df selected_players w
    = (Ok tt, {| heap := heap w; screen := screen w ++ part |}).
Proof.
  intros Hname. unfold App.comparison.
  destruct (length selected_players <? 2)%nat.
  - eexists. split; [by left|]. reflexivity.
  - rewrite Hname. simpl. unfold set_index_transpose, filter_rows.
    rewrite getitem_take_rows, Hname. simpl.
    eexists. split; [right; eexists; reflexivity|].
    unfold mbind, M_bind, draw, lift. simpl. by rewrite <- app_assoc.
Qed.

(** Two runs of Search & Compare for Pitchers. With the usage value
    ["1.2.3%"] in the pitch file [app.py] returns and [fa_tracker.py]
    raises. *)
Lemma pitchers_two_points_runs (A : Argsort) :
  fst (App.main (read_from (files_with pitches_two_points))
         (choose "Search & Compare Free Agents" "Performance Data" "Pitchers"
            [2025%Z] None) start) = Ok tt /\
  fst (FaTracker.main (read_from (files_with pitches_two_points))
         (choose "Search & Compare Free Agents" "Performance Data" "Pitchers"
            [2025%Z] None) start) = Raise (ValueError "1.2.3").
Proof. split; vm_compute; reflexivity. Qed.

(** With a space before a label of the pitch file both return;
    [fa_tracker.py] leaves the stored pitch frame with the label stripped,
    [app.py] leaves it as loaded. *)
Lemma pitchers_spaced_runs (A : Argsort) :
  fst (App.main (read_from (files_with pitches_spaced))
         (choose "Search & Compare Free Agents" "Performance Data" "Pitchers"
            [2025%Z] None) start) = Ok tt /\
  fst (FaTracker.main (read_from (files_with pitches_spaced))
         (choose "Search & Compare Free Agents" "Performance Data" "Pitchers"
            [2025%Z] None) start) = Ok tt /\
  heap (snd (App.main (read_from (files_with pitches_spaced))
         (choose "Search & Compare Free Agents" "Performance Data" "Pitchers"
            [2025%Z] None) start)) !! 19%nat = Some pitches_spaced /\
  heap (snd (FaTracker.main (read_from (files_with pitches_spaced))
         (choose "Search & Compare Free Agents" "Performance Data" "Pitchers"
            [2025%Z] None) start)) !! 19%nat
  = Some [("Name", object [VStr "P"]); ("SL%", object [VStr "45.0%"])].
Proof. repeat split; vm_compute; reflexivity. Qed.

(** C4 (as the code has it). The two scripts give the same result, the same
    screen and the same heap on every page other than Search & Compare. On
    Search & Compare both first run the same code, up to the player
    selector; if it raises, both runs end there alike. Otherwise both go on
    from the same state and only add to the screen: [app.py] with the
    comparison (the warning, or the heading and the table), which
    [fa_tracker.py] does not have. For a player type other than Pitchers
    that is all: [fa_tracker.py] returns at once, [app.py] after the
    comparison, with the same heap. For Pitchers both next draw the pitch
    heading; what follows is different code, and there are runs where
    [app.py] returns and [fa_tracker.py] raises, and runs that leave
    different heaps. *)
Theorem entry_points_agree (read_csv : string -> result DataFrame) (A : Argsort)
    (i : inputs) (w : world) :
  (page i <> "Search & Compare Free Agents" ->
     App.main read_csv i w = FaTracker.main read_csv i w)
  /\ (page i = "Search & Compare Free Agents" ->
      match (data ← load_data read_csv; sidebar;; search_compare_common data i) w with
      | (Raise e, w0) =>
          App.main read_csv i w = (Raise e, w0) /\
          FaTracker.main read_csv i w = (Raise e, w0)
      | (Ok (combined_df, selected_players), w0) =>
          exists part : list element,
            (part = [warning "Please select at least 2 players for comparison."] \/
             exists T : Transposed,
               part = [markdown ("### " +:+ player_type i +:+ " Comparison for " +:+
                                 years_text (selected_years i));
                       data_editor_transposed T]) /\
            App.comparison (player_type i) (selected_years i) combined_df
              selected_players w0
            = (Ok tt, {| heap := heap w0; screen := screen w0 ++ part |}) /\
            if eqs (player_type i) "Pitchers" then
              exists rest_app rest_fa : list element,
                screen (snd (App.main read_csv i w))
                = screen w0 ++ part ++
                    markdown "### Pitch Type Usage & Performance" :: rest_app /\
                screen (snd (FaTracker.main read_csv i w))
                = screen w0 ++ markdown "### Pitch Type Usage & Performance" :: rest_fa
            else
              FaTracker.main read_csv i w = (Ok tt, w0) /\
              App.main read_csv i w
              = (Ok tt, {| heap := heap w0; screen := screen w0 ++ part |})
      end)
  /\ (page i = "Search & Compare Free Agents" ->
      player_type i <> "Pitchers" ->
      heap (snd (App.main read_csv i w)) = heap (snd (FaTracker.main read_csv i w)) /\
      exists extra,
        screen (snd (App.main read_csv i w))
        = screen (snd (FaTracker.main read_csv i w)) ++ extra)
  /\ (exists (files : string -> result DataFrame) (choice : inputs),
        page choice = "Search & Compare Free Agents" /\
        player_type choice = "Pitchers" /\
        fst (App.main files choice start) = Ok tt /\
        exists detail,
          fst (FaTracker.main files choice start) = Raise (ValueError detail))
  /\ (exists (files : string -> result DataFrame) (choice : inputs),
        page choice = "Search & Compare Free Agents" /\
        player_type choice = "Pitchers" /\
        fst (App.main files choice start) = Ok tt /\
        fst (FaTracker.main files choice start) = Ok tt /\
        heap (snd (App.main files choice start))
        <> heap (snd (FaTracker.main files choice start))).
Proof.
  assert (Hmain :
    (page i <> "Search & Compare Free Agents" ->
       App.main read_csv i w = FaTracker.main read_csv i w)
    /\ (page i = "Search & Compare Free Agents" ->
        match (data ← load_data read_csv; sidebar;; search_compare_common data i) w with
        | (Raise e, w0) =>
            App.main read_csv i w = (Raise e, w0) /\
            FaTracker.main read_csv i w = (Raise e, w0)
        | (Ok (combined_df, selected_players), w0) =>
            exists part : list element,
              (part = [warning "Please select at least 2 players for comparison."] \/
               exists T : Transposed,
                 part = [markdown ("### " +:+ player_type i +:+ " Comparison for " +:+
                                   years_text (selected_years i));
                         data_editor_transposed T]) /\
              App.comparison (player_type i) (selected_years i) combined_df
                selected_players w0
              = (Ok tt, {| heap := heap w0; screen := screen w0 ++ part |}) /\
              if eqs (player_type i) "Pitchers" then
                exists rest_app rest_fa : list element,
                  screen (snd (App.main read_csv i w))
                  = screen w0 ++ part ++
                      markdown "### Pitch Type Usage & Performance" :: rest_app /\
                  screen (snd (FaTracker.main read_csv i w))
                  = screen w0 ++ markdown "### Pitch Type Usage & Performance" :: rest_fa
              else
                FaTracker.main read_csv i w = (Ok tt, w0) /\
                App.main read_csv i w
                = (Ok tt, {| heap := heap w0; screen := screen w0 ++ part |})
        end)).
  { rewrite App_main_run, FaTracker_main_run, (bind_run (load_data read_csv)).
    destruct (load_data read_csv w) as [[data|e] w1]; [|by split].
    rewrite (bind_run sidebar), sidebar_spec. fold (with_sidebar w1).
    generalize (with_sidebar w1). clear w w1. intros w.
    split.
    - intros Hne. rewrite bind_run.
      destruct (eqs (page i) "Home") eqn:Hhome.
      + apply String.eqb_eq in Hhome. rewrite Hhome. reflexivity.
      + assert (Hsc : eqs (page i) "Search & Compare Free Agents" = false)
          by (by apply String.eqb_neq).
        rewrite Hsc. unfold mret at 2, M_ret.
        destruct (eqs (page i) "2025 Free Agents"); [reflexivity|].
        destruct (eqs (page i) "Top Leaders"); reflexivity.
    - intros Hpage. rewrite Hpage.
      change (eqs "Search & Compare Free Agents" "Home") with false.
      change (eqs "Search & Compare Free Agents" "Search & Compare Free Agents")
        with true.
      cbv iota. rewrite (bind_run (mret tt)).
      change ((mret tt : M unit) w) with (Ok tt, w). cbv iota.
      rewrite <- App_search_compare_split, <- FaTracker_search_compare_split.
      rewrite !bind_run.
      destruct (search_compare_common data i w) as [[[combined_df selected]|e] w0]
        eqn:Hcommon; [|by split].
      destruct (search_compare_common_ok _ _ _ _ _ _ Hcommon) as (name & Hname & _).
      destruct (comparison_run (player_type i) (selected_years i) combined_df selected
                  name w0 Hname) as (part & Hpart & Hcomp).
      exists part. split; [exact Hpart|]. split; [exact Hcomp|].
      cbn [fst snd]. rewrite bind_run, Hcomp.
      destruct (eqs (player_type i) "Pitchers"); [|by split].
      rewrite !bind_run, !draw_run.
      cbn [heap screen].
      destruct (extends_app_pitches data i selected
                  {| heap := heap w0;
                     screen := (screen w0 ++ part) ++
                       [markdown "### Pitch Type Usage & Performance"] |})
        as [rest_app Happ].
      destruct (extends_fa_pitches data i selected
                  {| heap := heap w0;
                     screen := screen w0 ++
                       [markdown "### Pitch Type Usage & Performance"] |})
        as [rest_fa Hfa].
      exists rest_app, rest_fa. cbn [heap screen] in *. split.
      + rewrite Happ, <- !app_assoc. reflexivity.
      + rewrite Hfa, <- !app_assoc. reflexivity. }
  destruct Hmain as [Hother Hpage].
  split; [exact Hother|]. split; [exact Hpage|]. split; [|split].
  - intros Hsc Hpt. specialize (Hpage Hsc).
    destruct ((data ← load_data read_csv; sidebar;; search_compare_common data i) w)
      as [[[combined_df selected]|e] w0].
    + destruct Hpage as (part & _ & _ & Hruns).
      assert (Hp : eqs (player_type i) "Pitchers" = false) by (by apply String.eqb_neq).
      rewrite Hp in Hruns.
      destruct Hruns as [-> ->]. cbn [fst snd heap screen].
      split; [reflexivity|]. by exists part.
    + destruct Hpage as [-> ->]. split; [reflexivity|]. exists []. by rewrite app_nil_r.
  - exists (read_from (files_with pitches_two_points)),
      (choose "Search & Compare Free Agents" "Performance Data" "Pitchers"
         [2025%Z] None).
    destruct (pitchers_two_points_runs A) as [H1 H2].
    split; [reflexivity|]. split; [reflexivity|]. split; [exact H1|].
    by exists "1.2.3".
  - exists (read_from (files_with pitches_spaced)),
      (choose "Search & Compare Free Agents" "Performance Data" "Pitchers"
         [2025%Z] None).
    destruct (pitchers_spaced_runs A) as (H1 & H2 & H3 & H4).
    split; [reflexivity|]. split; [reflexivity|]. split; [exact H1|].
    split; [exact H2|]. intros Heq. rewrite Heq in H3.
    pose proof (eq_trans (eq_sym H3) H4) as E. clear -E. discriminate E.
Qed.

(** * Further properties of the loader, the conversion and the pages *)

(** ** More on the loader *)

Lemma load_year_ok (read_csv : string -> result DataFrame) (data : Dataset)
    (year : Z) (w : world) (d1 d2 d3 d4 d5 : DataFrame) :
  read_csv ("hitters_" +:+ str_int year +:+ ".csv") = Ok d1 ->
  read_csv ("hitters_" +:+ str_int year +:+ "_contract.csv") = Ok d2 ->
  read_csv ("pitchers_" +:+ str_int year +:+ ".csv") = Ok d3 ->
  read_csv ("pitchers_" +:+ str_int year +:+ "_contract.csv") = Ok d4 ->
  read_csv ("pitchers_" +:+ str_int year +:+ "_pitches.csv") = Ok d5 ->
  load_year read_csv data year w
  = (Ok (<["pitchers" :=
            <[year := {["performance" := (2 + length (heap w))%nat;
                        "contract" := (3 + length (heap w))%nat;
                        "pitches" := (4 + length (heap w))%nat]}]>
              (default ∅
                 (<["hitters" :=
                     <[year := {["performance" := length (heap w);
                                 "contract" := (1 + length (heap w))%nat]}]>
                       (default ∅ (data !! "hitters"))]> data !! "pitchers"))]>
          (<["hitters" :=
              <[year := {["performance" := length (heap w);
                          "contract" := (1 + length (heap w))%nat]}]>
                (default ∅ (data !! "hitters"))]> data)),
     {| heap := heap w ++ [drop "playerid" d1; drop "playerid" d2;
                           drop "playerid" d3; drop "playerid" d4;
                           drop "playerid" d5];
        screen := screen w |}).
Proof.
  intros H1 H2 H3 H4 H5. unfold load_year. cbv zeta.
  rewrite bind_run, read_spec, H1.
  rewrite bind_run, read_spec, H2.
  rewrite bind_run, read_spec, H3.
  rewrite bind_run, read_spec, H4.
  rewrite bind_run, read_spec, H5.
  cbn [heap screen]. unfold mret, M_ret.
  rewrite !length_app. cbn [length].
  rewrite <- !app_assoc. cbn [app].
  replace (length (heap w) + 1)%nat with (1 + length (heap w))%nat by lia.
  replace (1 + length (heap w) + 1)%nat with (2 + length (heap w))%nat by lia.
  replace (2 + length (heap w) + 1)%nat with (3 + length (heap w))%nat by lia.
  replace (3 + length (heap w) + 1)%nat with (4 + length (heap w))%nat by lia.
  reflexivity.
Qed.

Ltac among :=
  apply list_elem_of_In; vm_compute; repeat (first [left; reflexivity | right]).

Lemma loaded_ok (read_csv : string -> result DataFrame) (name : string) (d : DataFrame) :
  read_csv name = Ok d -> loaded read_csv name = Some (drop "playerid" d).
Proof. unfold loaded. by intros ->. Qed.

Lemma omap_cons_Some {A B} (f : A -> option B) (x : A) (l : list A) (y : B) :
  f x = Some y -> omap f (x :: l) = y :: omap f l.
Proof. intros H. change (omap f (x :: l)) with (match f x with Some y => y :: omap f l | None => omap f l end). by rewrite H. Qed.

Lemma Forall2_loaded (read_csv : string -> result DataFrame) (names : list string)
    (fs : list DataFrame) :
  Forall2 (fun name f => read_csv name = Ok f) names fs ->
  omap (loaded read_csv) names = map (drop "playerid") fs.
Proof.
  induction 1 as [|name f names fs H _ IH]; [reflexivity|].
  rewrite (omap_cons_Some _ _ _ _ (loaded_ok _ _ _ H)), IH. reflexivity.
Qed.

(** What [load_data] does when every file can be read. *)
Lemma load_data_run (read_csv : string -> result DataFrame) (w : world) :
  first_failure read_csv expected_files = None ->
  exists data fs,
    load_data read_csv w
    = (Ok data, {| heap := heap w ++ map (drop "playerid") fs; screen := screen w |}) /\
    Forall2 (fun name f => read_csv name = Ok f) expected_files fs /\
    (forall (k j : nat) (year : Z) (category kind : string),
       [22; 23; 24; 25]%Z !! k = Some year ->
       [("hitters", "performance"); ("hitters", "contract");
        ("pitchers", "performance"); ("pitchers", "contract");
        ("pitchers", "pitches")] !! j = Some (category, kind) ->
       data_get data category year kind = Ok (5 * k + j + length (heap w))%nat) /\
    (forall (k : nat) (year : Z), [22; 23; 24; 25]%Z !! k = Some year ->
       data_get data "hitters" year "pitches" = Raise (KeyError "pitches")).
Proof.
  intros Hnone. pose proof (proj1 (first_failure_None _ _) Hnone) as Hall.
  destruct (Hall ("hitters_" +:+ str_int 22 +:+ ".csv")) as [a1 Ha1]; [among|].
  destruct (Hall ("hitters_" +:+ str_int 22 +:+ "_contract.csv")) as [a2 Ha2]; [among|].
  destruct (Hall ("pitchers_" +:+ str_int 22 +:+ ".csv")) as [a3 Ha3]; [among|].
  destruct (Hall ("pitchers_" +:+ str_int 22 +:+ "_contract.csv")) as [a4 Ha4]; [among|].
  destruct (Hall ("pitchers_" +:+ str_int 22 +:+ "_pitches.csv")) as [a5 Ha5]; [among|].
  destruct (Hall ("hitters_" +:+ str_int 23 +:+ ".csv")) as [b1 Hb1]; [among|].
  destruct (Hall ("hitters_" +:+ str_int 23 +:+ "_contract.csv")) as [b2 Hb2]; [among|].
  destruct (Hall ("pitchers_" +:+ str_int 23 +:+ ".csv")) as [b3 Hb3]; [among|].
  destruct (Hall ("pitchers_" +:+ str_int 23 +:+ "_contract.csv")) as [b4 Hb4]; [among|].
  destruct (Hall ("pitchers_" +:+ str_int 23 +:+ "_pitches.csv")) as [b5 Hb5]; [among|].
  destruct (Hall ("hitters_" +:+ str_int 24 +:+ ".csv")) as [c1 Hc1]; [among|].
  destruct (Hall ("hitters_" +:+ str_int 24 +:+ "_contract.csv")) as [c2 Hc2]; [among|].
  destruct (Hall ("pitchers_" +:+ str_int 24 +:+ ".csv")) as [c3 Hc3]; [among|].
  destruct (Hall ("pitchers_" +:+ str_int 24 +:+ "_contract.csv")) as [c4 Hc4]; [among|].
  destruct (Hall ("pitchers_" +:+ str_int 24 +:+ "_pitches.csv")) as [c5 Hc5]; [among|].
  destruct (Hall ("hitters_" +:+ str_int 25 +:+ ".csv")) as [e1 He1]; [among|].
  destruct (Hall ("hitters_" +:+ str_int 25 +:+ "_contract.csv")) as [e2 He2]; [among|].
  destruct (Hall ("pitchers_" +:+ str_int 25 +:+ ".csv")) as [e3 He3]; [among|].
  destruct (Hall ("pitchers_" +:+ str_int 25 +:+ "_contract.csv")) as [e4 He4]; [among|].
  destruct (Hall ("pitchers_" +:+ str_int 25 +:+ "_pitches.csv")) as [e5 He5]; [among|].
  unfold load_data. cbv zeta. cbn [load_years].
  rewrite bind_run, (load_year_ok _ _ _ _ _ _ _ _ _ Ha1 Ha2 Ha3 Ha4 Ha5).
  rewrite bind_run, (load_year_ok _ _ _ _ _ _ _ _ _ Hb1 Hb2 Hb3 Hb4 Hb5).
  rewrite bind_run, (load_year_ok _ _ _ _ _ _ _ _ _ Hc1 Hc2 Hc3 Hc4 Hc5).
  rewrite bind_run, (load_year_ok _ _ _ _ _ _ _ _ _ He1 He2 He3 He4 He5).
  cbn [heap screen]. rewrite !length_app. cbn [length].
  remember (length (heap w)) as n eqn:Hn.
  replace (n + 5 + 5 + 5)%nat with (15 + n)%nat by lia.
  replace (n + 5 + 5)%nat with (10 + n)%nat by lia.
  replace (n + 5)%nat with (5 + n)%nat by lia.
  match goal with |- context [mret ?d _] => set (data := d) end.
  exists data, [a1; a2; a3; a4; a5; b1; b2; b3; b4; b5;
                c1; c2; c3; c4; c5; e1; e2; e3; e4; e5].
  split; [|split; [|split]].
  { rewrite <- !app_assoc. reflexivity. }
  { unfold expected_files, expected_year_files. cbn [map concat app].
    repeat (constructor; [assumption|]). constructor. }
  - intros k j year category kind Hk Hj.
    destruct k as [|[|[|[|k]]]]; try discriminate Hk; injection Hk as <-.
    all: destruct j as [|[|[|[|[|j]]]]]; try discriminate Hj; injection Hj as <- <-.
    all: clear -data; vm_compute; reflexivity.
  - intros k year Hk.
    destruct k as [|[|[|[|k]]]]; try discriminate Hk; injection Hk as <-.
    all: clear -data; vm_compute; reflexivity.
Qed.

(** X1. When all twenty files can be read, [load_data] returns, draws
    nothing and adds exactly twenty frames to the heap, in the order the
    files are read, each the file's frame without its [playerid] column.
    In the dictionary it returns each of the years 22 to 25 has the
    hitters' performance and contract frames and the pitchers' performance,
    contract and pitch frames, every one an object of its own, and no pitch
    frame for hitters. *)
Theorem load_data_builds (read_csv : string -> result DataFrame) (w : world) :
  first_failure read_csv expected_files = None ->
  exists data w',
    load_data read_csv w = (Ok data, w') /\
    screen w' = screen w /\
    heap w' = heap w ++ omap (loaded read_csv) expected_files /\
    length (heap w') = (20 + length (heap w))%nat /\
    (forall (k j : nat) (year : Z) (category kind : string),
       [22; 23; 24; 25]%Z !! k = Some year ->
       [("hitters", "performance"); ("hitters", "contract");
        ("pitchers", "performance"); ("pitchers", "contract");
        ("pitchers", "pitches")] !! j = Some (category, kind) ->
       data_get data category year kind = Ok (5 * k + j + length (heap w))%nat) /\
    (forall (k : nat) (year : Z), [22; 23; 24; 25]%Z !! k = Some year ->
       data_get data "hitters" year "pitches" = Raise (KeyError "pitches")).
Proof.
  intros Hnone.
  destruct (load_data_run read_csv w Hnone) as (data & fs & Hrun & Hfs & Hget & Hno).
  eexists data, _. split; [exact Hrun|]. cbn [heap screen].
  split; [reflexivity|]. split; [|split; [|split]].
  - by rewrite (Forall2_loaded _ _ _ Hfs).
  - rewrite length_app, length_map, <- (Forall2_length _ _ _ Hfs).
    change (length expected_files) with 20%nat. lia.
  - exact Hget.
  - exact Hno.
Qed.

Lemma load_data_builds_witness :
  first_failure sample_files expected_files = None /\
  exists data w',
    load_data sample_files start = (Ok data, w') /\
    length (heap w') = 20%nat /\
    data_get data "pitchers" 25 "pitches" = Ok 19%nat.
Proof.
  split; [vm_compute; reflexivity|].
  destruct (load_data_builds sample_files start) as (data & w' & H1 & _ & _ & H4 & H5 & _).
  - vm_compute. reflexivity.
  - exists data, w'. split; [exact H1|]. split; [exact H4|].
    exact (H5 3%nat 4%nat 25%Z "pitchers" "pitches" eq_refl eq_refl).
Defined.

(** X2. After a successful load every choice the pages offer finds its
    frame: for a season 2022 to 2025, hitters or pitchers, performance or
    contract data (and the pitchers' pitch data), the lookup
    [data[category][int(str(year)[-2:])][kind]] returns a reference whose
    object is the frame of the file named after that category, season and
    kind, without the [playerid] column. *)
Theorem load_data_serves_pages (read_csv : string -> result DataFrame) (w : world) :
  first_failure read_csv expected_files = None ->
  exists (data : Dataset) (w' : world),
    load_data read_csv w = (Ok data, w') /\
    forall (year : Z) (category kind : string),
      year ∈ [2022; 2023; 2024; 2025]%Z ->
      (category, kind) ∈ [("hitters", "performance"); ("hitters", "contract");
                          ("pitchers", "performance"); ("pitchers", "contract");
                          ("pitchers", "pitches")] ->
      exists (l : loc) (f : DataFrame),
        (yy ← year_key year; data_get data category yy kind) = Ok l /\
        read_csv (category +:+ "_" +:+ last_two (str_int year) +:+
                  (if eqs kind "performance" then ".csv" else "_" +:+ kind +:+ ".csv"))
          = Ok f /\
        heap w' !! l = Some (drop "playerid" f) /\
        "playerid" ∉ columns (drop "playerid" f).
Proof.
  intros Hnone.
  destruct (load_data_run read_csv w Hnone) as (data & fs & Hrun & Hfs & Hget & _).
  eexists data, _. split; [exact Hrun|]. cbn [heap].
  intros year category kind Hyear Hkind.
  assert (Hslot : forall k j name,
            (k < 4)%nat -> (j < 5)%nat -> expected_files !! (5 * k + j)%nat = Some name ->
            exists f, read_csv name = Ok f /\
              (heap w ++ map (drop "playerid") fs) !! (5 * k + j + length (heap w))%nat
              = Some (drop "playerid" f)).
  { intros k j name Hk Hj Hname.
    destruct (Forall2_lookup_l _ _ _ _ _ Hfs Hname) as (f & Hf & Hread).
    exists f. split; [exact Hread|].
    rewrite lookup_app_r by lia.
    replace (5 * k + j + length (heap w) - length (heap w))%nat with (5 * k + j)%nat by lia.
    by rewrite list_lookup_fmap, Hf. }
  assert (Hdrop : forall f, "playerid" ∉ columns (drop "playerid" f)).
  { intros f Hin. unfold columns, drop in Hin.
    apply list_elem_of_fmap in Hin as ((c & s) & Hc & Hin).
    apply list_elem_of_In, filter_In in Hin as [_ Hin].
    cbn in Hc, Hin. subst c. discriminate Hin. }
  apply list_elem_of_In in Hyear, Hkind. cbn [In] in Hyear, Hkind.
  assert (Hy : exists k yy, [22; 23; 24; 25]%Z !! k = Some yy /\ (k < 4)%nat /\
                 year_key year = Ok yy /\ last_two (str_int year) = str_int yy).
  { destruct Hyear as [<-|[<-|[<-|[<-|[]]]]];
      [exists 0%nat, 22%Z|exists 1%nat, 23%Z|exists 2%nat, 24%Z|exists 3%nat, 25%Z];
      repeat split; try lia; vm_compute; reflexivity. }
  destruct Hy as (k & yy & Hk & Hlt & Hkey & Hlast).
  rewrite Hkey, Hlast. cbn [mbind result_bind].
  assert (Hj : exists j, [("hitters", "performance"); ("hitters", "contract");
                          ("pitchers", "performance"); ("pitchers", "contract");
                          ("pitchers", "pitches")] !! j = Some (category, kind) /\
                 (j < 5)%nat /\
                 expected_year_files yy !! j
                 = Some (category +:+ "_" +:+ str_int yy +:+
                         (if eqs kind "performance" then ".csv"
                          else "_" +:+ kind +:+ ".csv"))).
  { destruct Hkind as [[= <- <-]|[[= <- <-]|[[= <- <-]|[[= <- <-]|[[= <- <-]|[]]]]]];
      [exists 0%nat|exists 1%nat|exists 2%nat|exists 3%nat|exists 4%nat];
      repeat split; lia. }
  destruct Hj as (j & Hj & Hjlt & Hname).
  match type of Hname with _ = Some ?n =>
    destruct (Hslot k j n Hlt Hjlt) as (f & Hread & Hheap) end.
  { clear -Hk Hname Hjlt.
    destruct k as [|[|[|[|k]]]]; try discriminate Hk; injection Hk as <-.
    all: destruct j as [|[|[|[|[|j]]]]]; try lia.
    all: rewrite <- Hname; vm_compute; reflexivity. }
  exists (5 * k + j + length (heap w))%nat, f.
  split; [exact (Hget k j yy category kind Hk Hj)|].
  split; [exact Hread|]. split; [exact Hheap|]. apply Hdrop.
Qed.

Lemma load_data_serves_pages_witness :
  first_failure sample_files expected_files = None /\
  exists (data : Dataset) (w' : world),
    load_data sample_files start = (Ok data, w') /\
    exists (l : loc) (f : DataFrame),
      (yy ← year_key 2024; data_get data "hitters" yy "performance") = Ok l /\
      sample_files "hitters_24.csv" = Ok f /\
      heap w' !! l = Some (drop "playerid" f).
Proof.
  split; [vm_compute; reflexivity|].
  destruct (load_data_serves_pages sample_files start) as (data & w' & H1 & H2).
  - vm_compute. reflexivity.
  - exists data, w'. split; [exact H1|].
    destruct (H2 2024%Z "hitters" "performance") as (l & f & Hl & Hf & Hh & _).
    + apply list_elem_of_In. cbn. tauto.
    + apply list_elem_of_In. cbn. tauto.
    + exists l, f. split; [exact Hl|]. split; [exact Hf|exact Hh].
Defined.


Lemma astype_float_length (values : list cell) (xs : list float) :
  astype_float values = Ok xs -> length xs = length values.
Proof.
  intros H. apply astype_float_ok in H. symmetry. exact (Forall2_length _ _ _ H).
Qed.





(** X4. On Search & Compare with no season selected both scripts draw the
    four controls and then end with the [ValueError] of [pd.concat] on an
    empty list: no table, player selector or warning is drawn and no frame
    is touched. *)
Theorem search_compare_without_season (data : Dataset) (i : inputs) (w : world) :
  selected_years i = [] ->
  App.search_compare_page data i w
  = (Raise (ValueError "No objects to concatenate"),
     {| heap := heap w;
        screen := screen w ++
          [title "Search & Compare Free Agents"; radio "Mode" modes;
           multiselect "Select Year(s)" years_options [int_cell 2025] None;
           radio "Select Player Type" player_types] |}) /\
  FaTracker.search_compare_page data i w = App.search_compare_page data i w.
Proof.
  intros Hyears.
  assert (Happ : forall (k : DataFrame -> M unit),
    (draw (title "Search & Compare Free Agents");;
     draw (radio "Mode" modes);;
     draw (multiselect "Select Year(s)" years_options [int_cell 2025] None);;
     draw (radio "Select Player Type" player_types);;
     dfs ← collect data (lower (player_type i))
             (if eqs (mode i) "Performance Data" then "performance" else "contract")
             (selected_years i);
     combined_df ← (ts ← contents dfs; lift (pd_concat ts));
     k combined_df) w
    = (Raise (ValueError "No objects to concatenate"),
       {| heap := heap w;
          screen := screen w ++
            [title "Search & Compare Free Agents"; radio "Mode" modes;
             multiselect "Select Year(s)" years_options [int_cell 2025] None;
             radio "Select Player Type" player_types] |})).
  { intros k. rewrite Hyears.
    repeat (rewrite bind_run, draw_run; cbv iota beta; cbn [heap screen]).
    rewrite <- !app_assoc. reflexivity. }
  split.
  - apply Happ.
  - unfold FaTracker.search_compare_page, App.search_compare_page.
    cbv zeta. rewrite !Happ. reflexivity.
Qed.

Lemma search_compare_without_season_witness :
  fst (FaTracker.search_compare_page ∅
         (choose "Search & Compare Free Agents" "Contract Data" "Pitchers" [] None) start)
  = Raise (ValueError "No objects to concatenate").
Proof.
  destruct (search_compare_without_season ∅
              (choose "Search & Compare Free Agents" "Contract Data" "Pitchers" [] None)
              start eq_refl) as [H1 H2].
  rewrite H2, H1. reflexivity.
Defined.

(** X5. On the Home page, when the twenty files can be read, a run of
    either script returns after drawing the sidebar, the title and the
    welcome text; the frames are as [load_data] left them, none is
    converted. *)
Theorem home_page_run (read_csv : string -> result DataFrame) (A : Argsort)
    (i : inputs) (w : world) :
  page i = "Home" ->
  first_failure read_csv expected_files = None ->
  exists (data : Dataset) (w1 : world),
    load_data read_csv w = (Ok data, w1) /\
    App.main read_csv i w
    = (Ok tt,
       {| heap := heap w1;
          screen := screen w ++
            [sidebar_title "MLB Free Agent Analysis";
             sidebar_markdown
               "***Created and updated by Carly Mitchell. (carlymbaseball@gmail.com)***";
             sidebar_radio "Select a Page" pages;
             title "MLB Free Agent Analysis Tool"; markdown home_text] |}) /\
    FaTracker.main read_csv i w = App.main read_csv i w.
Proof.
  intros Hpage Hnone.
  pose proof (load_data_spec read_csv w) as Hspec. rewrite Hnone in Hspec.
  destruct Hspec as (data & w1 & Hload & Hscreen).
  exists data, w1. split; [exact Hload|].
  rewrite App_main_run, FaTracker_main_run, Hload, Hpage.
  change (eqs "Home" "Home") with true.
  change (eqs "Home" "Search & Compare Free Agents") with false.
  change (eqs "Home" "2025 Free Agents") with false.
  change (eqs "Home" "Top Leaders") with false.
  cbv iota. unfold App.home_page, FaTracker.home_page, with_sidebar.
  repeat (rewrite bind_run, draw_run; cbv iota beta; cbn [heap screen]).
  rewrite !draw_run. cbn [heap screen].
  rewrite Hscreen, <- !app_assoc. split; reflexivity.
Qed.

Lemma home_page_run_witness :
  exists (data : Dataset) (w1 : world),
    load_data sample_files start = (Ok data, w1) /\
    App.main sample_files (A := stable_argsort)
      (choose "Home" "Performance Data" "Hitters" [2025%Z] None) start
    = (Ok tt,
       {| heap := heap w1;
          screen := [sidebar_title "MLB Free Agent Analysis";
             sidebar_markdown
               "***Created and updated by Carly Mitchell. (carlymbaseball@gmail.com)***";
             sidebar_radio "Select a Page" pages;
             title "MLB Free Agent Analysis Tool"; markdown home_text] |}).
Proof.
  destruct (home_page_run sample_files stable_argsort
              (choose "Home" "Performance Data" "Hitters" [2025%Z] None) start)
    as (data & w1 & H1 & H2 & _).
  - reflexivity.
  - vm_compute. reflexivity.
  - exists data, w1. split; [exact H1|exact H2].
Defined.














(** What one conversion does to the object, as a case distinction on the
    conversion of its columns. *)
Lemma convert_currency_columns_run (df : loc) (w : world) (t : DataFrame) :
  heap w !! df = Some t -> NoDup (columns t) ->
  match normalize t with
  | Ok t' => convert_currency_columns df w = (Ok df, set_heap w df t')
  | Raise e => exists t', convert_currency_columns df w = (Raise e, set_heap w df t')
  end.
Proof.
  intros Hdf Hnd. pose proof (convert_currency_columns_spec df w t Hdf) as H.
  destruct (normalize t); auto.
Qed.

(** X8. The 2025 Free Agents page, in either script, given the two frames
    of season 25 with distinct labels: both frames are converted before
    anything but the title and the data type control is drawn. If both
    conversions succeed the page shows the converted hitters and pitchers
    tables under their headings, and the two stored objects hold the
    converted frames. If the hitters' conversion raises, the pitchers' frame
    is left alone; if the pitchers' conversion raises, the hitters' object
    is already converted. In both cases no table is drawn. *)
Theorem free_agents_2025_run (data : Dataset) (i : inputs) (w : world)
    (h p : loc) (th tp : DataFrame) :
  data_get data "hitters" 25
    (if eqs (mode i) "Performance Data" then "performance" else "contract") = Ok h ->
  data_get data "pitchers" 25
    (if eqs (mode i) "Performance Data" then "performance" else "contract") = Ok p ->
  h <> p ->
  heap w !! h = Some th -> heap w !! p = Some tp ->
  NoDup (columns th) -> NoDup (columns tp) ->
  FaTracker.free_agents_2025_page data i w = App.free_agents_2025_page data i w /\
  match normalize th, normalize tp with
  | Ok th', Ok tp' =>
      App.free_agents_2025_page data i w
      = (Ok tt,
         {| heap := <[p := tp']> (<[h := th']> (heap w));
            screen := screen w ++
              [title "2025 Free Agents - 2024 Data"; radio "View Data Type" modes;
               markdown "### Hitters"; data_editor th';
               markdown "### Pitchers"; data_editor tp'] |})
  | Ok th', Raise e =>
      exists t1,
        App.free_agents_2025_page data i w
        = (Raise e,
           {| heap := <[p := t1]> (<[h := th']> (heap w));
              screen := screen w ++
                [title "2025 Free Agents - 2024 Data"; radio "View Data Type" modes] |})
  | Raise e, _ =>
      exists t1,
        App.free_agents_2025_page data i w
        = (Raise e,
           {| heap := <[h := t1]> (heap w);
              screen := screen w ++
                [title "2025 Free Agents - 2024 Data"; radio "View Data Type" modes] |})
  end.
Proof.
  intros Hh Hp Hne Hth Htp Hndh Hndp. split; [reflexivity|].
  unfold App.free_agents_2025_page. cbv zeta.
  repeat (rewrite bind_run, draw_run; cbv iota beta; cbn [heap screen]).
  rewrite bind_run, lift_run, Hh. cbv iota beta.
  rewrite bind_run, lift_run, Hp. cbv iota beta.
  set (w0 := {| heap := heap w; screen := _ |}).
  assert (Hth0 : heap w0 !! h = Some th) by exact Hth.
  pose proof (convert_currency_columns_run h w0 th Hth0 Hndh) as Hch.
  rewrite bind_run.
  destruct (normalize th) as [th'|e].
  2:{ destruct Hch as (t1 & ->). exists t1. unfold set_heap, w0. cbn [heap screen].
      by rewrite <- !app_assoc. }
  rewrite Hch. cbv iota beta.
  assert (Htp1 : heap (set_heap w0 h th') !! p = Some tp).
  { unfold set_heap. cbn [heap]. by rewrite list_lookup_insert_ne. }
  pose proof (convert_currency_columns_run p _ tp Htp1 Hndp) as Hcp.
  rewrite bind_run.
  destruct (normalize tp) as [tp'|e].
  2:{ destruct Hcp as (t1 & ->). exists t1. unfold set_heap, w0. cbn [heap screen].
      by rewrite <- !app_assoc. }
  rewrite Hcp. cbv iota beta.
  assert (Hh2 : heap (set_heap (set_heap w0 h th') p tp') !! h = Some th').
  { unfold set_heap. cbn [heap]. rewrite list_lookup_insert_ne by congruence.
    apply list_lookup_insert_eq. by eapply lookup_lt_Some. }
  assert (Hp2 : heap (set_heap (set_heap w0 h th') p tp') !! p = Some tp').
  { eapply set_heap_lookup, Htp1. }
  rewrite bind_run, draw_run. cbv iota beta.
  rewrite bind_run, bind_run, (deref_run h _ th') by exact Hh2. cbv iota beta.
  rewrite draw_run. cbv iota beta.
  rewrite bind_run, draw_run. cbv iota beta.
  rewrite bind_run, (deref_run p _ tp') by exact Hp2. cbv iota beta.
  rewrite draw_run. unfold set_heap, w0. cbn [heap screen].
  by rewrite <- !app_assoc.
Qed.

Lemma free_agents_2025_run_witness :
  exists t1,
    App.free_agents_2025_page {["hitters" := {[25%Z := {["contract" := 0%nat]}]};
                                "pitchers" := {[25%Z := {["contract" := 1%nat]}]}]}
      (choose "2025 Free Agents" "Contract Data" "Hitters" [2025%Z] None)
      {| heap := [contract_sample; contract_bad_salary]; screen := [] |}
    = (Raise (ValueError "abc"),
       {| heap := <[1%nat := t1]>
                    (<[0%nat := [("Name", object [VStr "A"; VStr "B"]);
                                 ("AAV", float64 [Fin 1200%Q; Fin 950%Q])]]>
                       [contract_sample; contract_bad_salary]);
          screen := [title "2025 Free Agents - 2024 Data";
                     radio "View Data Type" modes] |}).
Proof.
  destruct (free_agents_2025_run
              {["hitters" := {[25%Z := {["contract" := 0%nat]}]};
                "pitchers" := {[25%Z := {["contract" := 1%nat]}]}]}
              (choose "2025 Free Agents" "Contract Data" "Hitters" [2025%Z] None)
              {| heap := [contract_sample; contract_bad_salary]; screen := [] |}
              0%nat 1%nat contract_sample contract_bad_salary) as [_ H].
  - vm_compute. reflexivity.
  - vm_compute. reflexivity.
  - discriminate.
  - reflexivity.
  - reflexivity.
  - apply (bool_decide_unpack (NoDup (columns contract_sample))). vm_compute. exact I.
  - apply (bool_decide_unpack (NoDup (columns contract_bad_salary))). vm_compute. exact I.
  - assert (E1 : normalize contract_sample
                 = Ok [("Name", object [VStr "A"; VStr "B"]);
                       ("AAV", float64 [Fin 1200%Q; Fin 950%Q])])
      by (vm_compute; reflexivity).
    assert (E2 : normalize contract_bad_salary = Raise (ValueError "abc"))
      by (vm_compute; reflexivity).
    rewrite E1, E2 in H. exact H.
Defined.

Lemma convert_currency_columns_allocated (df l : loc) (w w' : world) :
  convert_currency_columns df w = (Ok l, w') -> exists t, heap w !! df = Some t.
Proof.
  unfold convert_currency_columns. rewrite bind_run. unfold deref.
  destruct (heap w !! df) as [t|]; [by exists t|discriminate].
Qed.

Lemma contents_run (dfs : list loc) (w : world) (ts : list DataFrame) :
  Forall2 (fun l t => heap w !! l = Some t) dfs ts ->
  contents dfs w = (Ok ts, w).
Proof.
  induction 1 as [|l t dfs ts Hl _ IH]; [reflexivity|].
  cbn [contents]. rewrite bind_run, (deref_run l w t Hl). cbv iota beta.
  rewrite bind_run, IH. reflexivity.
Qed.

(** X9. The loop of Search & Compare that collects the frames of the
    selected seasons: when it returns, the list holds, season by season in
    the order selected, the reference stored in [data]; nothing is drawn and
    no object is added; every collected object holds the conversion of the
    frame it held before the loop, also when a season is selected twice; and
    all other objects are untouched. The frames handed to [pd.concat] are
    these converted frames. *)
Theorem collect_frames (data : Dataset) (category kind : string) (years : list Z)
    (w w' : world) (dfs : list loc) :
  collect data category kind years w = (Ok dfs, w') ->
  Forall2 (fun year l => (yy ← year_key year; data_get data category yy kind) = Ok l)
          years dfs /\
  screen w' = screen w /\
  length (heap w') = length (heap w) /\
  (forall l, l ∉ dfs -> heap w' !! l = heap w !! l) /\
  (forall l, l ∈ dfs ->
     exists t t', heap w !! l = Some t /\ normalize t = Ok t' /\ heap w' !! l = Some t') /\
  exists ts, contents dfs w' = (Ok ts, w') /\
    Forall2 (fun l t' => exists t, heap w !! l = Some t /\ normalize t = Ok t') dfs ts.
Proof.
  assert (Hmain : forall years w w' dfs,
    collect data category kind years w = (Ok dfs, w') ->
    Forall2 (fun year l => (yy ← year_key year; data_get data category yy kind) = Ok l)
            years dfs /\
    screen w' = screen w /\
    length (heap w') = length (heap w) /\
    (forall l, l ∉ dfs -> heap w' !! l = heap w !! l) /\
    (forall l, l ∈ dfs ->
       exists t t', heap w !! l = Some t /\ normalize t = Ok t' /\ heap w' !! l = Some t')).
  { clear. induction years as [|year rest IH]; intros w w' dfs Hrun.
    - injection Hrun as <- <-. split; [constructor|]. do 3 (split; [reflexivity|]).
      intros l Hl. by apply elem_of_nil in Hl.
    - cbn [collect] in Hrun. rewrite bind_run, lift_run in Hrun.
      destruct (yy ← year_key year; data_get data category yy kind) as [l0|e] eqn:Hl0;
        [|discriminate Hrun].
      rewrite bind_run in Hrun.
      destruct (convert_currency_columns l0 w) as [[l1|e] w1] eqn:Hc; [|discriminate Hrun].
      destruct (convert_currency_columns_allocated _ _ _ _ Hc) as (t0 & Ht0).
      destruct (convert_currency_columns_ok _ _ _ _ _ Ht0 Hc) as (-> & _ & t0' & Hn0 & ->).
      rewrite bind_run in Hrun.
      destruct (collect data category kind rest (set_heap w l0 t0')) as [[dfs'|e] w2] eqn:Hrest;
        [|discriminate Hrun].
      injection Hrun as <- <-.
      destruct (IH _ _ _ Hrest) as (Hrefs & Hscreen & Hlen & Hout & Hin).
      split; [by constructor|]. split; [exact Hscreen|].
      split; [by rewrite Hlen; unfold set_heap; cbn [heap]; rewrite length_insert|].
      split.
      + intros l Hl. apply not_elem_of_cons in Hl as [Hne Hl].
        rewrite (Hout l Hl). unfold set_heap. cbn [heap].
        by rewrite list_lookup_insert_ne.
      + intros l Hl.
        assert (Hl0' : heap (set_heap w l0 t0') !! l0 = Some t0')
          by (by eapply set_heap_lookup).
        destruct (decide (l = l0)) as [->|Hne].
        * exists t0, t0'. split; [exact Ht0|]. split; [exact Hn0|].
          destruct (decide (l0 ∈ dfs')) as [Hmem|Hmem].
          -- destruct (Hin l0 Hmem) as (t & t' & Ht & Hn & Ht').
             rewrite Hl0' in Ht. injection Ht as <-.
             rewrite (normalize_idem _ _ Hn0) in Hn. injection Hn as <-. exact Ht'.
          -- by rewrite (Hout l0 Hmem).
        * apply elem_of_cons in Hl as [Heq|Hl]; [congruence|].
          destruct (Hin l Hl) as (t & t' & Ht & Hn & Ht').
          exists t, t'. split; [|by split].
          rewrite <- Ht. unfold set_heap. cbn [heap].
          by rewrite list_lookup_insert_ne. }
  intros Hrun. destruct (Hmain _ _ _ _ Hrun) as (H1 & H2 & H3 & H4 & H5).
  do 5 (split; [assumption|]).
  assert (Hts : exists ts,
            Forall2 (fun l t' => heap w' !! l = Some t' /\
                       exists t, heap w !! l = Some t /\ normalize t = Ok t') dfs ts).
  { clear -H5. induction dfs as [|l dfs IH]; [exists []; constructor|].
    destruct (H5 l) as (t & t' & Ht & Hn & Ht'); [by left|].
    destruct IH as (ts & Hts); [intros l' Hl'; apply H5; by right|].
    exists (t' :: ts). constructor; [|exact Hts]. split; [exact Ht'|]. by exists t. }
  destruct Hts as (ts & Hts). exists ts. split.
  - apply contents_run. eapply Forall2_impl; [exact Hts|]. by intros l t [H _].
  - eapply Forall2_impl; [exact Hts|]. by intros l t [_ H].
Qed.

Lemma collect_frames_witness :
  exists (dfs : list loc) (w' : world),
    collect {["hitters" := {[25%Z := {["contract" := 0%nat]}]}]} "hitters" "contract"
      [2025%Z; 2025%Z] {| heap := [contract_sample]; screen := [] |} = (Ok dfs, w') /\
    screen w' = [] /\ length (heap w') = 1%nat.
Proof.
  eexists _, _. split; [vm_compute; reflexivity|].
  destruct (collect_frames {["hitters" := {[25%Z := {["contract" := 0%nat]}]}]}
              "hitters" "contract" [2025%Z; 2025%Z]
              {| heap := [contract_sample]; screen := [] |}
              {| heap := [[("Name", object [VStr "A"; VStr "B"]);
                           ("AAV", float64 [Fin 1200%Q; Fin 950%Q])]]; screen := [] |}
              [0%nat; 0%nat]) as (_ & H2 & H3 & _).
  - vm_compute. reflexivity.
  - split; [exact H2|exact H3].
Defined.



Lemma getitem_nonempty (df : DataFrame) (col : string) (s : Series) :
  getitem df col = Ok s -> df <> [].
Proof. by intros H ->. Qed.




Lemma extract_keys (df : DataFrame) (label : string -> string) (types : list string)
    (d : list (string * cell)) :
  FaTracker.extract df label types = Ok d ->
  map fst d = List.filter (fun pitch => bool_decide (label pitch ∈ columns df)) types.
Proof.
  revert d. induction types as [|pitch rest IH]; intros d H; cbn [FaTracker.extract] in H.
  - by injection H as <-.
  - cbn [List.filter]. destruct (bool_decide (label pitch ∈ columns df)); [|by apply IH].
    destruct (getitem df (label pitch)) as [s|e]; [|discriminate H].
    cbn [mbind result_bind] in H.
    destruct (cells s !! 0%nat) as [v|]; [|discriminate H].
    cbn [mbind result_bind] in H.
    destruct (FaTracker.extract df label rest) as [others|e]; [|discriminate H].
    injection H as <-. cbn [map fst]. f_equal. by apply IH.
Qed.

Lemma get_None (d : list (string * cell)) (k : string) :
  FaTracker.get d k = None <-> k ∉ map fst d.
Proof.
  unfold FaTracker.get. induction d as [|[k' v] rest IH]; cbn [List.find map fst].
  - split; [intros _ H; by apply elem_of_nil in H|reflexivity].
  - destruct (String.eqb_spec k' k) as [->|Hne].
    + split; [discriminate|]. intros H. exfalso. apply H. by left.
    + rewrite IH, not_elem_of_cons. split; [by split|by intros [_ H]].
Qed.

Lemma sublist_List_filter {X} (f : X -> bool) (l : list X) : sublist (List.filter f l) l.
Proof.
  induction l as [|x l IH]; [constructor|]. cbn [List.filter].
  destruct (f x); by constructor.
Qed.

Lemma extract_get (df : DataFrame) (label : string -> string) (d : list (string * cell))
    (pitch : string) :
  FaTracker.extract df label FaTracker.pitch_types = Ok d ->
  pitch ∈ FaTracker.pitch_types ->
  (FaTracker.get d pitch = None <-> label pitch ∉ columns df).
Proof.
  intros Hd Hin. rewrite get_None, (extract_keys _ _ _ _ Hd).
  split; intros H H'; apply H.
  - apply list_elem_of_In, filter_In. split; [by apply list_elem_of_In|].
    by apply bool_decide_eq_true_2.
  - apply list_elem_of_In, filter_In in H' as [_ H'].
    by apply bool_decide_eq_true_1 in H'.
Qed.

(** X11. The frame built for a pitcher's chart: it has at least one pitch;
    its pitch types are pitch types of the fixed list, in that order and
    each once, and each has a usage column in the pitcher's data; its five
    columns have one entry per pitch; and the velocity, value and stuff of a
    pitch are null exactly when the pitcher's data has no column [v],
    [w] or [Stf+ ] for that pitch. *)
Theorem breakdown_summary (pitcher_data : DataFrame) (s : pitch_summary) :
  FaTracker.breakdown pitcher_data = Ok (Some s) ->
  Pitch_Type s <> [] /\
  sublist (Pitch_Type s) FaTracker.pitch_types /\
  NoDup (Pitch_Type s) /\
  length (Usage s) = length (Pitch_Type s) /\
  length (Velo s) = length (Pitch_Type s) /\
  length (Value s) = length (Pitch_Type s) /\
  length (Stf s) = length (Pitch_Type s) /\
  forall (i : nat) (pitch : string), Pitch_Type s !! i = Some pitch ->
    pitch +:+ "%" ∈ columns pitcher_data /\
    (Velo s !! i = Some None <-> "v" +:+ pitch ∉ columns pitcher_data) /\
    (Value s !! i = Some None <-> "w" +:+ pitch ∉ columns pitcher_data) /\
    (Stf s !! i = Some None <-> "Stf+ " +:+ pitch ∉ columns pitcher_data).
Proof.
  unfold FaTracker.breakdown. intros H.
  destruct (FaTracker.extract pitcher_data (fun pitch => pitch +:+ "%") FaTracker.pitch_types)
    as [usage|e] eqn:Husage; [|discriminate H].
  destruct (FaTracker.extract pitcher_data (fun pitch => "v" +:+ pitch) FaTracker.pitch_types)
    as [velo|e] eqn:Hvelo; [|discriminate H].
  destruct (FaTracker.extract pitcher_data (fun pitch => "w" +:+ pitch) FaTracker.pitch_types)
    as [value|e] eqn:Hvalue; [|discriminate H].
  destruct (FaTracker.extract pitcher_data (fun pitch => "Stf+ " +:+ pitch) FaTracker.pitch_types)
    as [stuff|e] eqn:Hstuff; [|discriminate H].
  cbn [mbind result_bind] in H.
  destruct (FaTracker.parse_usage usage) as [parsed|e] eqn:Hparsed; [|discriminate H].
  cbn [mbind result_bind] in H.
  destruct parsed as [|p parsed]; [discriminate H|].
  injection H as <-. set (r := p :: parsed) in *.
  unfold FaTracker.summary_of. cbn [Pitch_Type Usage Velo Value Stf].
  assert (Hsub : sublist (map fst r) FaTracker.pitch_types).
  { rewrite (parse_usage_keys _ _ Hparsed).
    transitivity (map fst usage).
    - apply (fmap_sublist fst), sublist_List_filter.
    - rewrite (extract_keys _ _ _ _ Husage). apply sublist_List_filter. }
  split; [discriminate|]. split; [exact Hsub|].
  split.
  { eapply sublist_NoDup; [|exact Hsub].
    apply (bool_decide_unpack (NoDup FaTracker.pitch_types)). vm_compute. exact I. }
  rewrite !length_map. do 4 (split; [reflexivity|]).
  intros i pitch Hi.
  assert (Hin : pitch ∈ map fst r) by (by eapply list_elem_of_lookup_2).
  assert (Htype : pitch ∈ FaTracker.pitch_types) by (by eapply elem_of_sublist).
  split.
  { rewrite (parse_usage_keys _ _ Hparsed) in Hin.
    apply list_elem_of_fmap in Hin as (x & -> & Hx).
    apply list_elem_of_In, filter_In in Hx as [Hx _].
    assert (Hk : fst x ∈ map fst usage)
      by (apply list_elem_of_fmap; exists x; split; [done|by apply list_elem_of_In]).
    rewrite (extract_keys _ _ _ _ Husage) in Hk.
    apply list_elem_of_In, filter_In in Hk as [_ Hk].
    by apply bool_decide_eq_true_1 in Hk. }
  rewrite (list_lookup_fmap (FaTracker.get velo)), (list_lookup_fmap (FaTracker.get value)),
    (list_lookup_fmap (FaTracker.get stuff)), Hi. cbn [fmap option_fmap option_map].
  rewrite <- (extract_get _ _ _ _ Hvelo Htype), <- (extract_get _ _ _ _ Hvalue Htype),
    <- (extract_get _ _ _ _ Hstuff Htype).
  repeat split; congruence.
Qed.

Lemma breakdown_summary_witness :
  exists s : pitch_summary,
    FaTracker.breakdown
      (filter_rows pitches_sample (series_eq (object [VStr "P"; VStr "Q"]) (VStr "P")))
    = Ok (Some s) /\
    Pitch_Type s <> [] /\ length (Velo s) = length (Pitch_Type s).
Proof.
  eexists. split; [vm_compute; reflexivity|].
  match goal with |- Pitch_Type ?s <> [] /\ _ =>
    destruct (breakdown_summary
                (filter_rows pitches_sample
                   (series_eq (object [VStr "P"; VStr "Q"]) (VStr "P"))) s)
      as (H1 & _ & _ & _ & H5 & _)
  end.
  - vm_compute. reflexivity.
  - split; [exact H1|exact H5].
Defined.

Lemma default_stat (options : list string) (first : string) :
  options !! 0%nat = Some first ->
  options !! (if bool_decide ("WAR" ∈ options)
              then default 0%nat (list_find (eq "WAR") options ≫= (Some ∘ fst))
              else 0%nat)
  = Some (if bool_decide ("WAR" ∈ options) then "WAR" else first).
Proof.
  intros Hfirst. destruct (bool_decide_reflect ("WAR" ∈ options)) as [Hin|Hin]; [|exact Hfirst].
  destruct (list_find_elem_of (eq "WAR") options "WAR" Hin eq_refl) as [[k x] Hfind].
  rewrite Hfind. cbn. apply list_find_Some in Hfind as (Hk & <- & _). exact Hk.
Qed.

(** X12. On Top Leaders, leaving the stat selector untouched is the same as
    choosing [WAR] when the table has a [WAR] column after its first
    column, and the same as choosing the table's second column otherwise:
    the run gives the same result, screen and data either way. The page of
    [fa_tracker.py] is the page of [app.py]. *)
Theorem top_leaders_default_stat (A : Argsort) (data : Dataset) (i : inputs) (w : world)
    (df : loc) (t : DataFrame) (first : string) :
  selected_stat i = None ->
  (yy ← year_key (selected_year i);
   data_get data (lower (player_type i)) yy
     (if eqs (data_type i) "Performance Data" then "performance" else "contract")) = Ok df ->
  heap w !! df = Some t ->
  columns t !! 1%nat = Some first ->
  App.top_leaders_page (A := A) data i w
  = App.top_leaders_page (A := A) data
      {| page := page i; mode := mode i; selected_years := selected_years i;
         player_type := player_type i; selected_players := selected_players i;
         selected_year := selected_year i; data_type := data_type i;
         selected_stat := Some (if bool_decide ("WAR" ∈ tail (columns t))
                                then "WAR" else first) |} w /\
  FaTracker.top_leaders_page (A := A) data i w = App.top_leaders_page (A := A) data i w.
Proof.
  intros Hstat Hlookup Ht Hfirst. split; [|reflexivity].
  unfold App.top_leaders_page. cbv zeta.
  cbn [selected_year player_type data_type selected_stat]. rewrite Hstat.
  repeat (rewrite !bind_run, !draw_run; cbv iota beta; cbn [heap screen]).
  rewrite !(bind_run (lift _)), !lift_run, Hlookup. cbv iota beta.
  set (w0 := {| heap := heap w; screen := _ |}).
  rewrite !(bind_run (convert_currency_columns df)).
  destruct (convert_currency_columns df w0) as [[l|e] w1] eqn:Hc; [|reflexivity].
  assert (Ht0 : heap w0 !! df = Some t) by exact Ht.
  destruct (convert_currency_columns_ok _ _ _ _ _ Ht0 Hc) as (-> & _ & t' & Hn & ->).
  assert (Ht' : heap (set_heap w0 df t') !! df = Some t') by (by eapply set_heap_lookup).
  rewrite !(bind_run (deref df)), (deref_run df _ t' Ht'). cbv iota beta.
  rewrite (normalize_columns _ _ Hn).
  rewrite !(bind_run (draw _)), !draw_run. cbv iota beta.
  rewrite !(bind_run (lift _)), !lift_run.
  rewrite (default_stat (tail (columns t)) first) by (by rewrite lookup_tail).
  reflexivity.
Qed.

Lemma top_leaders_default_stat_witness :
  App.top_leaders_page (A := stable_argsort)
    {["hitters" := {[25%Z := {["performance" := 0%nat]}]}]}
    (choose "Top Leaders" "Performance Data" "Hitters" [2025%Z] None)
    {| heap := [war_sample]; screen := [] |}
  = App.top_leaders_page (A := stable_argsort)
      {["hitters" := {[25%Z := {["performance" := 0%nat]}]}]}
      {| page := "Top Leaders"; mode := "Performance Data"; selected_years := [2025%Z];
         player_type := "Hitters"; selected_players := None; selected_year := 2025;
         data_type := "Performance Data"; selected_stat := Some "WAR" |}
      {| heap := [war_sample]; screen := [] |}.
Proof.
  destruct (top_leaders_default_stat stable_argsort
              {["hitters" := {[25%Z := {["performance" := 0%nat]}]}]}
              (choose "Top Leaders" "Performance Data" "Hitters" [2025%Z] None)
              {| heap := [war_sample]; screen := [] |} 0%nat war_sample "WAR")
    as [H _].
  - reflexivity.
  - vm_compute. reflexivity.
  - reflexivity.
  - reflexivity.
  - exact H.
Defined.
